(** * YoutubeCommentsCrawl: the count parser, the extraction pipeline,
      the scroll controller, the video filter and the run orchestrator
      of [youtube_comment_scraper.py], embedded as Rocq functions.

    The browser is a parameter (class [Browser]); what the scraper logs,
    and the files it reads and writes, are left out. *)

From Stdlib Require Import ZArith List String Ascii Bool Lia.
From Stdlib Require Import Floats.SpecFloat.
From Stdlib Require DecimalString.
From stdpp Require Import base option list sorting gmap strings.

Local Open Scope string_scope.
Local Open Scope Z_scope.

(** ** Python values the scraper computes with *)

Module Py.

(** A [str] is a [string]; its characters stand for the code points
    0..255.  Text outside that range is not modelled. *)

(** What a Python call that may raise hands back. *)
Inductive exn : Type :=
| ValueError
| OverflowError
| KeyError
| AttributeError
| WebDriverException.

Inductive result (A : Type) : Type :=
| Ok (a : A)
| Raise (e : exn).
Arguments Ok {A} a.
Arguments Raise {A} e.

Definition bind {A B : Type} (r : result A) (k : A -> result B) : result B :=
  match r with
  | Ok a => k a
  | Raise e => Raise e
  end.

(** [try: body / except: handler] with a bare [except]. *)
Definition try_except {A : Type} (body : result A) (handler : result A) : result A :=
  match body with
  | Ok a => Ok a
  | Raise _ => handler
  end.

Definition code (c : ascii) : nat := nat_of_ascii c.

Definition in_range (lo hi : nat) (c : ascii) : bool :=
  (lo <=? code c)%nat && (code c <=? hi)%nat.

Definition is_digit (c : ascii) : bool := in_range 48 57 c.

Definition digit_value (c : ascii) : Z := Z.of_nat (code c) - 48.

(** [str.isspace] on one character: tab..CR, FS..US, blank, NEL, NBSP. *)
Definition isspace (c : ascii) : bool :=
  in_range 9 13 c || in_range 28 31 c || (code c =? 32)%nat
  || (code c =? 133)%nat || (code c =? 160)%nat.

(** The blanks [int()] and [float()] skip around a literal: the C
    white space, and NEL and NBSP (which they first turn into a blank). *)
Definition numeric_space (c : ascii) : bool :=
  in_range 9 13 c || (code c =? 32)%nat
  || (code c =? 133)%nat || (code c =? 160)%nat.

Fixpoint lstrip_by (sp : ascii -> bool) (s : string) : string :=
  match s with
  | String c s' => if sp c then lstrip_by sp s' else s
  | EmptyString => EmptyString
  end.

Fixpoint rstrip_by (sp : ascii -> bool) (s : string) : string :=
  match s with
  | String c s' =>
      match rstrip_by sp s' with
      | EmptyString => if sp c then EmptyString else String c EmptyString
      | r => String c r
      end
  | EmptyString => EmptyString
  end.

(** [s.strip()] *)
Definition strip (s : string) : string := rstrip_by isspace (lstrip_by isspace s).

(** [c.upper()] for one character: a..z and the lower-case Latin-1
    letters that have a Latin-1 capital.  (The three others, 181, 223 and
    255, leave the range; none of them, nor what they map to, is a
    character of a number or a suffix.) *)
Definition upper_char (c : ascii) : ascii :=
  if in_range 97 122 c || ((in_range 224 254 c) && negb (code c =? 247)%nat)
  then ascii_of_nat (code c - 32)
  else c.

Fixpoint upper (s : string) : string :=
  match s with
  | String c s' => String (upper_char c) (upper s')
  | EmptyString => EmptyString
  end.

(** [s.replace(c, '')] for a one-character pattern. *)
Fixpoint remove_char (c : ascii) (s : string) : string :=
  match s with
  | String d s' => if Ascii.eqb d c then remove_char c s' else String d (remove_char c s')
  | EmptyString => EmptyString
  end.

(** [c in s] for a one-character pattern. *)
Fixpoint contains_char (c : ascii) (s : string) : bool :=
  match s with
  | String d s' => Ascii.eqb d c || contains_char c s'
  | EmptyString => false
  end.

(** [enumerate(l, start)] *)
Fixpoint enumerate {A : Type} (start : Z) (l : list A) : list (Z * A) :=
  match l with
  | [] => []
  | x :: l' => (start, x) :: enumerate (start + 1) l'
  end.

(** *** Numeric literals *)

(** The digits of [digit (["_"] digit)*] read so far, as a number and a
    count, and what follows them. *)
Fixpoint digits_tail (acc : Z) (n : Z) (s : string) : Z * Z * string :=
  match s with
  | String c s' =>
      if is_digit c then digits_tail (10 * acc + digit_value c) (n + 1) s'
      else if Ascii.eqb c "_" then
        match s' with
        | String d s'' =>
            if is_digit d then digits_tail (10 * acc + digit_value d) (n + 1) s''
            else (acc, n, s)
        | EmptyString => (acc, n, s)
        end
      else (acc, n, s)
  | EmptyString => (acc, n, EmptyString)
  end.

(** [digitpart]: value, number of digits, rest; [None] when no digit
    starts the text.  [acc] and [n] continue a run read before. *)
Definition digitpart (acc n : Z) (s : string) : option (Z * Z * string) :=
  match s with
  | String c s' =>
      if is_digit c then Some (digits_tail (10 * acc + digit_value c) (n + 1) s')
      else None
  | EmptyString => None
  end.

(** An optional sign: [true] for "-". *)
Definition sign (s : string) : bool * string :=
  match s with
  | String "-" s' => (true, s')
  | String "+" s' => (false, s')
  | _ => (false, s)
  end.

(** [int(s)] for a str, base 10.  (The interpreter's optional limit
    on the number of digits is not modelled.) *)
Definition int_of_str (s : string) : result Z :=
  let s := rstrip_by numeric_space (lstrip_by numeric_space s) in
  let '(neg, s) := sign s in
  match digitpart 0 0 s with
  | Some (v, _, EmptyString) => Ok (if neg then - v else v)
  | _ => Raise ValueError
  end.

(** *** binary64 *)

Definition prec : Z := 53.
Definition emax : Z := 1024.

Definition float : Type := spec_float.

(** The double nearest to [m * 10^x] (ties to even), [m >= 0]. *)
Definition round_decimal (neg : bool) (m x : Z) : float :=
  match m with
  | Z0 => S754_zero neg
  | Zpos p =>
      if 0 <=? x then binary_round prec emax neg (Pos.mul p (Z.to_pos (10 ^ x))) 0
      else
        let '(q, e, l) := SFdiv_core_binary prec emax (Zpos p) 0 (10 ^ (- x)) 0 in
        binary_round_aux prec emax neg q e l
  | Zneg _ => S754_nan
  end.

(** [number [exponent]] of the float grammar, after the sign:
    mantissa digits and decimal exponent. *)
Definition exponent (s : string) : option Z :=
  match s with
  | EmptyString => Some 0
  | String c s' =>
      if Ascii.eqb c "e" || Ascii.eqb c "E" then
        let '(neg, s'') := sign s' in
        match digitpart 0 0 s'' with
        | Some (v, _, EmptyString) => Some (if neg then - v else v)
        | _ => None
        end
      else None
  end.

Definition fraction (ip : Z) (s : string) : option (Z * Z) :=
  match digitpart ip 0 s with
  | Some (m, k, r) =>
      match exponent r with
      | Some x => Some (m, x - k)
      | None => None
      end
  | None => None
  end.

Definition floatnumber (s : string) : option (Z * Z) :=
  match digitpart 0 0 s with
  | Some (ip, _, r) =>
      match r with
      | String "." r' =>
          match r' with
          | String c _ =>
              if is_digit c then fraction ip r'
              else match exponent r' with Some x => Some (ip, x) | None => None end
          | EmptyString => Some (ip, 0)
          end
      | _ => match exponent r with Some x => Some (ip, x) | None => None end
      end
  | None =>
      match s with
      | String "." r' => fraction 0 r'
      | _ => None
      end
  end.

(** [float(s)] for a str. *)
Definition float_of_str (s : string) : result float :=
  let s := rstrip_by numeric_space (lstrip_by numeric_space s) in
  let '(neg, s) := sign s in
  let u := upper s in
  if String.eqb u "INF" || String.eqb u "INFINITY" then Ok (S754_infinity neg)
  else if String.eqb u "NAN" then Ok S754_nan
  else
    match floatnumber s with
    | Some (m, x) => Ok (round_decimal neg m x)
    | None => Raise ValueError
    end.

(** [float(n)] for an int that a double holds exactly. *)
Definition float_of_int (n : Z) : float := binary_normalize prec emax n 0 false.

Definition fmul (x y : float) : float := SFmul prec emax x y.

(** [int(x)] for a float: towards zero. *)
Definition int_of_float (x : float) : result Z :=
  match x with
  | S754_zero _ => Ok 0
  | S754_infinity _ => Raise OverflowError
  | S754_nan => Raise ValueError
  | S754_finite neg m e =>
      let a := Z.shiftl (Zpos m) e in
      Ok (if neg then - a else a)
  end.

End Py.

Import Py.

(** ** Count parser *)

(** [multipliers = {'K': 1000, 'M': 1000000}], in insertion order. *)
Definition multipliers : list (ascii * Z) :=
  [("K"%char, 1000); ("M"%char, 1000000)].

(** [int(float(count_text.replace(suffix, '')) * multiplier)] *)
Definition scaled (suffix : ascii) (multiplier : Z) (count_text : string) : result Z :=
  bind (float_of_str (remove_char suffix count_text))
       (fun x => int_of_float (fmul x (float_of_int multiplier))).

(** The [for suffix, multiplier in multipliers.items()] loop of
    [_parse_count]: [Some r] when an iteration returns [r]. *)
Fixpoint parse_suffixed (ms : list (ascii * Z)) (count_text : string) : option (result Z) :=
  match ms with
  | (suffix, multiplier) :: ms' =>
      if contains_char suffix count_text then
        Some (try_except (scaled suffix multiplier count_text) (Ok 0))
      else parse_suffixed ms' count_text
  | [] => None
  end.

(** [count_text.upper().replace(',', '')] *)
Definition normalised (count_text : string) : string :=
  remove_char "," (upper count_text).

Definition _parse_count (count_text : string) : result Z :=
  if String.eqb count_text "" then Ok 0
  else
    let count_text := normalised count_text in
    match parse_suffixed multipliers count_text with
    | Some r => r
    | None => try_except (int_of_str count_text) (Ok 0)
    end.

Definition starts_with_digit (s : string) : bool :=
  match s with
  | String d _ => is_digit d
  | EmptyString => false
  end.

(** [re.findall(r'\d+', s)]: the maximal runs of digits, left to right. *)
Fixpoint findall_digits (s : string) : list string :=
  match s with
  | EmptyString => []
  | String c s' =>
      let rest := findall_digits s' in
      if is_digit c then
        match rest with
        | r :: rs =>
            if starts_with_digit s' then String c r :: rs
            else String c EmptyString :: rest
        | [] => [String c EmptyString]
        end
      else rest
  end.

Definition _parse_reply_count (reply_text : string) : result Z :=
  try_except
    (match findall_digits reply_text with
     | number :: _ => int_of_str number
     | [] => Ok 0
     end)
    (Ok 0).

(** ** Configuration ([config.py]) *)

Record Config : Type := {
  DEFAULT_TIMEOUT : Z;
  PAGE_LOAD_WAIT : Z;
  MAX_SCROLL_ATTEMPTS : Z;
  SCROLL_DELAY : Z;
  INITIAL_SCROLL_ATTEMPTS : Z;
  MAX_NO_NEW_COMMENTS : Z;
  VIDEO_DELAY : Z;
  MIN_COMMENTS : Z;
  MIN_LIKES : Z;
  MIN_VIEWS : Z;
  MAX_COMMENTS : option Z;
  MAX_LIKES : option Z;
  MAX_VIEWS : option Z
}.

(** The values [config.py] ships. *)
Definition config : Config := {|
  DEFAULT_TIMEOUT := 10;
  PAGE_LOAD_WAIT := 3;
  MAX_SCROLL_ATTEMPTS := 5000;
  SCROLL_DELAY := 2;
  INITIAL_SCROLL_ATTEMPTS := 5;
  MAX_NO_NEW_COMMENTS := 1;
  VIDEO_DELAY := 2;
  MIN_COMMENTS := 10;
  MIN_LIKES := 0;
  MIN_VIEWS := 500;
  MAX_COMMENTS := None;
  MAX_LIKES := None;
  MAX_VIEWS := None
|}.

(** [validate_config]: the list of complaints; the module raises
    [ValueError] on import when it is not empty. *)
Definition config_errors (cfg : Config) : list string :=
  (if DEFAULT_TIMEOUT cfg <=? 0 then ["DEFAULT_TIMEOUT must be > 0"] else [])
  ++ (if PAGE_LOAD_WAIT cfg <=? 0 then ["PAGE_LOAD_WAIT must be > 0"] else [])
  ++ (if MAX_SCROLL_ATTEMPTS cfg <=? 0 then ["MAX_SCROLL_ATTEMPTS must be > 0"] else [])
  ++ (if SCROLL_DELAY cfg <=? 0 then ["SCROLL_DELAY must be > 0"] else [])
  ++ (if MAX_NO_NEW_COMMENTS cfg <=? 0 then ["MAX_NO_NEW_COMMENTS must be > 0"] else [])
  ++ (if VIDEO_DELAY cfg <? 0 then ["VIDEO_DELAY must be >= 0"] else [])
  ++ (if MIN_COMMENTS cfg <? 0 then ["MIN_COMMENTS must be >= 0"] else [])
  ++ (if MIN_LIKES cfg <? 0 then ["MIN_LIKES must be >= 0"] else [])
  ++ (if MIN_VIEWS cfg <? 0 then ["MIN_VIEWS must be >= 0"] else []).

Definition validate_config (cfg : Config) : result bool :=
  match config_errors cfg with
  | [] => Ok true
  | _ => Raise ValueError
  end.

(** ** The video table *)

(** What a cell of the table read by [pd.read_csv] holds. *)
Inductive cell : Type :=
| CNaN
| CInt (n : Z)
| CFloat (x : float)
| CStr (s : string)
| CBool (b : bool).

(** One row: its index label and its cells by column name (what
    [row.to_dict()] gives). *)
Record Row : Type := {
  row_index : Z;
  row_cells : gmap string cell
}.

Record DataFrame : Type := {
  df_columns : list string;
  df_rows : list Row
}.

Definition set_cells (f : gmap string cell -> gmap string cell) (r : Row) : Row :=
  {| row_index := row_index r; row_cells := f (row_cells r) |}.

(** The cell of a row under a column of the frame. *)
Definition row_get (name : string) (r : Row) : cell :=
  default CNaN (row_cells r !! name).

(** [df.get(name, 0)]: the column, or the default when there is none. *)
Definition df_get (name : string) (dflt : Z) (df : DataFrame) : list cell + Z :=
  if bool_decide (name ∈ df_columns df)
  then inl (map (row_get name) (df_rows df))
  else inr dflt.

(** [x.apply(f)]: only a column has the method. *)
Definition series_apply (f : cell -> Z) (x : list cell + Z) : result (list Z) :=
  match x with
  | inl series => Ok (map f series)
  | inr _ => Raise AttributeError
  end.

(** [df[name] = values], [values] in row order: a new column goes last. *)
Definition df_set (name : string) (values : list Z) (df : DataFrame) : DataFrame :=
  {| df_columns :=
       if bool_decide (name ∈ df_columns df) then df_columns df
       else df_columns df ++ [name];
     df_rows :=
       zip_with (fun r v => set_cells (insert name (CInt v)) r) (df_rows df) values |}.

(** The integer a helper column holds in a row. *)
Definition int_at (name : string) (r : Row) : Z :=
  match row_cells r !! name with
  | Some (CInt n) => n
  | _ => 0
  end.

(** [df[df[name] >= bound]] and [df[df[name] <= bound]]. *)
Definition at_least (name : string) (bound : Z) (df : DataFrame) : DataFrame :=
  {| df_columns := df_columns df;
     df_rows := filter (fun r => bound <= int_at name r) (df_rows df) |}.

Definition at_most (name : string) (bound : Z) (df : DataFrame) : DataFrame :=
  {| df_columns := df_columns df;
     df_rows := filter (fun r => int_at name r <= bound) (df_rows df) |}.

(** [df.drop(columns=names, errors='ignore')] *)
Definition df_drop (names : list string) (df : DataFrame) : DataFrame :=
  {| df_columns := filter (fun c => c ∉ names) (df_columns df);
     df_rows := map (set_cells (fun m => foldr delete m names)) (df_rows df) |}.

(** ** Video filter *)

(** [parse_korean_number], the helper inside [apply_video_filters].
    [str(value)] of an int is its decimal literal, and of a float a
    literal that reads back as the same float, with no comma or blank
    in either; so for these cells [float(str_val)] is the double nearest
    to the int, and the float itself. *)
Definition parse_korean_number (value : cell) : Z :=
  match value with
  | CNaN => 0
  | CFloat S754_nan => 0
  | CStr "" => 0
  | CStr s =>
      match try_except
              (bind (float_of_str (remove_char " " (remove_char "," s))) int_of_float)
              (Ok 0) with
      | Ok n => n
      | Raise _ => 0
      end
  | CInt n =>
      match try_except (int_of_float (round_decimal (n <? 0) (Z.abs n) 0)) (Ok 0) with
      | Ok n => n
      | Raise _ => 0
      end
  | CFloat x =>
      match try_except (int_of_float x) (Ok 0) with
      | Ok n => n
      | Raise _ => 0
      end
  | CBool _ => 0
  end.

Definition col_comments : string := "댓글 수".
Definition col_likes : string := "좋아요 수".
Definition col_views : string := "조회수".
Definition int_comments : string := "댓글수_int".
Definition int_likes : string := "좋아요수_int".
Definition int_views : string := "조회수_int".

Definition helper_columns : list string := [int_comments; int_likes; int_views].

(** [df[helper] = df.get(col, 0).apply(parse_korean_number)] *)
Definition add_parsed (helper col : string) (df : DataFrame) : result DataFrame :=
  bind (series_apply parse_korean_number (df_get col 0 df)) (fun v =>
  Ok (df_set helper v df)).

(** [if minimum > 0: df = df[df[helper] >= minimum]] *)
Definition filter_minimum (helper : string) (minimum : Z) (df : DataFrame) : DataFrame :=
  if 0 <? minimum then at_least helper minimum df else df.

(** [if maximum is not None: df = df[df[helper] <= maximum]] *)
Definition filter_maximum (helper : string) (maximum : option Z) (df : DataFrame) : DataFrame :=
  match maximum with
  | Some m => at_most helper m df
  | None => df
  end.

(** [apply_video_filters]; what it logs is left out. *)
Definition apply_video_filters (cfg : Config) (df : DataFrame) : result DataFrame :=
  bind (add_parsed int_comments col_comments df) (fun df =>
  bind (add_parsed int_likes col_likes df) (fun df =>
  bind (add_parsed int_views col_views df) (fun df =>
  let df := filter_minimum int_comments (MIN_COMMENTS cfg) df in
  let df := filter_minimum int_likes (MIN_LIKES cfg) df in
  let df := filter_minimum int_views (MIN_VIEWS cfg) df in
  let df := filter_maximum int_comments (MAX_COMMENTS cfg) df in
  let df := filter_maximum int_likes (MAX_LIKES cfg) df in
  let df := filter_maximum int_views (MAX_VIEWS cfg) df in
  Ok (df_drop helper_columns df)))).

(** Row by row: a row once a helper column is set, once the three are,
    and once they are dropped. *)
Definition add_helper (helper col : string) (r : Row) : Row :=
  set_cells (insert helper (CInt (parse_korean_number (row_get col r)))) r.

Definition with_helpers (r : Row) : Row :=
  add_helper int_views col_views
    (add_helper int_likes col_likes
       (add_helper int_comments col_comments r)).

Definition drop_helpers (r : Row) : Row :=
  set_cells (fun m => foldr delete m helper_columns) r.

(** The parsed metric of a row. *)
Definition metric (col : string) (r : Row) : Z :=
  parse_korean_number (row_get col r).

(** The two kinds of test a row meets. *)
Definition meets_minimum (minimum : Z) (x : Z) : Prop := 0 < minimum -> minimum <= x.

Definition meets_maximum (maximum : option Z) (x : Z) : Prop :=
  match maximum with
  | Some m => x <= m
  | None => True
  end.

#[global] Instance meets_minimum_dec (minimum x : Z) : Decision (meets_minimum minimum x).
Proof. unfold meets_minimum. apply _. Defined.

#[global] Instance meets_maximum_dec (maximum : option Z) (x : Z) :
  Decision (meets_maximum maximum x).
Proof. destruct maximum; simpl; apply _. Defined.

(** The six tests of [apply_video_filters] on a row that has its helper
    cells, the last applied first. *)
Definition passes (cfg : Config) (r : Row) : Prop :=
  meets_maximum (MAX_VIEWS cfg) (int_at int_views r)
  /\ meets_maximum (MAX_LIKES cfg) (int_at int_likes r)
  /\ meets_maximum (MAX_COMMENTS cfg) (int_at int_comments r)
  /\ meets_minimum (MIN_VIEWS cfg) (int_at int_views r)
  /\ meets_minimum (MIN_LIKES cfg) (int_at int_likes r)
  /\ meets_minimum (MIN_COMMENTS cfg) (int_at int_comments r).

#[global] Instance passes_dec (cfg : Config) (r : Row) : Decision (passes cfg r).
Proof. unfold passes. apply _. Defined.

(** The table has the three metric columns. *)
Definition has_metric_columns (df : DataFrame) : Prop :=
  col_comments ∈ df_columns df /\ col_likes ∈ df_columns df /\ col_views ∈ df_columns df.

(** ** Extraction pipeline *)

(** What the selectors of the extraction code find under one [#comment]
    element: the text of the element found, or [None] where
    [find_element] (or reading [.text]) raises; for the three markers,
    whether an element matches. *)
Record CommentElement : Type := {
  content_text : option string;
  author_text : option string;
  vote_count_middle : option string;
  more_replies : option string;
  published_time_text : option string;
  dislike_label : bool;
  pinned_label : bool;
  creator_heart : bool
}.

(** A [ytd-comment-thread-renderer] element: its [#comment] child, if any. *)
Record CommentThread : Type := {
  comment : option CommentElement
}.

(** The keys [extract_comment_data] fills in. *)
Record CommentData : Type := {
  comment_text : string;
  author_name : string;
  upvotes : Z;
  downvotes : Z;
  has_dislike_button : bool;
  reply_count : Z;
  timestamp : string;
  is_pinned : bool;
  is_hearted : bool
}.

(** [find_element(...).text.strip()] inside a [try]. *)
Definition stripped_text (found : option string) : result string :=
  match found with
  | Some t => Ok (strip t)
  | None => Raise WebDriverException
  end.

(** [try: x = body / except: x = dflt] *)
Definition or_default {A : Type} (body : result A) (dflt : A) : A :=
  match body with
  | Ok a => a
  | Raise _ => dflt
  end.

Definition _extract_basic_comment_info (comment_element : CommentElement) : string * string :=
  (or_default (stripped_text (content_text comment_element)) "",
   or_default (stripped_text (author_text comment_element)) "").

Definition _has_dislike_button (comment_element : CommentElement) : bool :=
  dislike_label comment_element.

Definition _is_comment_pinned (comment_element : CommentElement) : bool :=
  pinned_label comment_element.

Definition _is_comment_hearted (comment_element : CommentElement) : bool :=
  creator_heart comment_element.

Definition _extract_engagement_metrics (comment_element : CommentElement) : Z * Z * bool * Z :=
  (or_default (bind (stripped_text (vote_count_middle comment_element)) _parse_count) 0,
   0,
   _has_dislike_button comment_element,
   or_default (bind (stripped_text (more_replies comment_element)) _parse_reply_count) 0).

Definition _extract_comment_metadata (comment_element : CommentElement) : string * bool * bool :=
  (or_default (stripped_text (published_time_text comment_element)) "",
   _is_comment_pinned comment_element,
   _is_comment_hearted comment_element).

(** [extract_comment_data]: the three helpers absorb every failure, so
    the outer [except] has nothing to catch; [None] is the falsy
    [comment_text]. *)
Definition extract_comment_data (comment_element : CommentElement) : option CommentData :=
  let '(text, author) := _extract_basic_comment_info comment_element in
  let '(up, down, dislike, replies) := _extract_engagement_metrics comment_element in
  let '(time, pinned, hearted) := _extract_comment_metadata comment_element in
  let comment_data :=
    {| comment_text := text; author_name := author; upvotes := up; downvotes := down;
       has_dislike_button := dislike; reply_count := replies; timestamp := time;
       is_pinned := pinned; is_hearted := hearted |} in
  if String.eqb (comment_text comment_data) "" then None else Some comment_data.

(** What one turn of [_process_comment_elements] gets out of a thread:
    the data of its [#comment] child, when it has one with a text. *)
Definition extract_thread (comment_element : CommentThread) : option CommentData :=
  match comment comment_element with
  | Some main_comment => extract_comment_data main_comment
  | None => None
  end.

(** The keys [_build_video_metadata] adds. *)
Record VideoMetadata : Type := {
  video_no : cell;
  video_date : cell;
  channel_name : cell;
  video_title : cell;
  video_url : cell;
  total_comments : cell;
  total_likes : cell;
  total_views : cell;
  scraped_at : Z;
  comment_position : Z
}.

(** A comment after [comment_data.update(...)]. *)
Record CommentRecord : Type := {
  data : CommentData;
  meta : VideoMetadata
}.

Definition position (r : CommentRecord) : Z := comment_position (meta r).

(** ** The browser *)

Inductive script : Type :=
| ScrollBy (dy : Z)
| ScrollIntoViewCenter (selector : string).

(** The browser session and the clock, as the scraper meets them: [W]
    is the state of the page and of the world around it.  Queries are
    total, as the rendering contract has them; [drv_get] may fail, and
    [wait_until_present] answers [false] on a timeout.  An instant is a
    number; [isoformat] is not modelled.  The advance step
    [_youtube_specific_scroll] and the recovery [_extra_patient_scroll]
    only drive the page, and are taken as the page's reaction to them. *)
Class Browser (W : Type) : Type := {
  drv_get : cell -> W -> result unit * W;
  wait_until_present : string -> W -> bool * W;
  execute_script : script -> W -> W;
  count_elements : string -> W -> nat;
  find_comment_threads : W -> list CommentThread;
  sleep : Z -> W -> W;
  now : W -> Z * W;
  _youtube_specific_scroll : W -> bool * W;
  _extra_patient_scroll : W -> W
}.

Section Scraper.

Context {W : Type} `{Browser W}.
Variable cfg : Config.

Definition _build_video_metadata (video_data : gmap string cell) (url : cell)
    (position : Z) (w : W) : VideoMetadata * W :=
  let '(t, w) := now w in
  ({| video_no := default (CStr "") (video_data !! "No.");
      video_date := default (CStr "") (video_data !! "날짜");
      channel_name := default (CStr "") (video_data !! "채널명");
      video_title := default (CStr "") (video_data !! "제목");
      video_url := default url (video_data !! "URL");
      total_comments := default (CInt 0) (video_data !! col_comments);
      total_likes := default (CInt 0) (video_data !! col_likes);
      total_views := default (CInt 0) (video_data !! col_views);
      scraped_at := t;
      comment_position := position |}, w).

(** The loop of [_process_comment_elements] from index [i] on.  A thread
    without a [#comment] child raises inside the [try]: [continue]. *)
Fixpoint process_from (i : Z) (comment_elements : list CommentThread)
    (video_data : gmap string cell) (url : cell) (w : W) : list CommentRecord * W :=
  match comment_elements with
  | [] => ([], w)
  | comment_element :: rest =>
      match comment comment_element with
      | Some main_comment =>
          match extract_comment_data main_comment with
          | Some comment_data =>
              let '(m, w) := _build_video_metadata video_data url (i + 1) w in
              let '(video_comments, w) := process_from (i + 1) rest video_data url w in
              ({| data := comment_data; meta := m |} :: video_comments, w)
          | None => process_from (i + 1) rest video_data url w
          end
      | None => process_from (i + 1) rest video_data url w
      end
  end.

Definition _process_comment_elements (comment_elements : list CommentThread)
    (video_data : gmap string cell) (url : cell) (w : W) : list CommentRecord * W :=
  process_from 0 comment_elements video_data url w.

(** ** Adaptive scroll controller *)

Definition _get_current_comments (w : W) : list CommentThread :=
  find_comment_threads w.

Definition len {A : Type} (l : list A) : Z := Z.of_nat (length l).

Definition _has_new_comments (current_count last_count : Z) : bool :=
  last_count <? current_count.

(** [for attempt in range(k)] of [_try_final_scroll]. *)
Fixpoint final_attempts (k : nat) (last_count : Z) (w : W) : bool * W :=
  match k with
  | O => (false, w)
  | S k' =>
      let '(_, w) := _youtube_specific_scroll w in
      let w := sleep 4 w in
      let final_count := len (_get_current_comments w) in
      if last_count <? final_count then (true, w)
      else final_attempts k' last_count w
  end.

Definition _try_final_scroll (last_count : Z) (w : W) : bool * W :=
  final_attempts 3 last_count w.

Definition _detect_related_videos_section (w : W) : bool :=
  if (15 <? count_elements "ytd-compact-video-renderer" w)%nat then
    if (0 <? count_elements "#comments" w)%nat
       || (0 <? count_elements "ytd-continuation-item-renderer" w)%nat
    then false
    else true
  else false.

Definition _should_stop_scrolling (no_new_count last_count : Z) (w : W) : bool * W :=
  if MAX_NO_NEW_COMMENTS cfg <=? no_new_count then
    let '(found, w) := _try_final_scroll last_count w in
    if found then (false, w) else (true, w)
  else if (15 <=? no_new_count) && (last_count <? 100) then
    if _detect_related_videos_section w then (true, w) else (false, w)
  else (false, w).

(** The locals of [_perform_smart_scroll]. *)
Record ScrollState : Type := {
  last_comment_count : Z;
  scroll_attempts : Z;
  no_new_comments_count : Z
}.

(** The observed count of [a] is at most that of [b]. *)
Definition count_le (a b : ScrollState) : Prop :=
  last_comment_count a <= last_comment_count b.

(** The first half of a turn of the [while] body: the advance step, the
    settle delay, and the count read after them. *)
Definition advance_and_count (st : ScrollState) (w : W) : Z * W :=
  let '(_, w) := _youtube_specific_scroll w in
  let delay :=
    if 100 <? last_comment_count st then SCROLL_DELAY cfg + 1 else SCROLL_DELAY cfg in
  let w := sleep delay w in
  (len (_get_current_comments w), w).

(** One turn of the [while] body; the flag is [break]. *)
Definition scroll_iteration (st : ScrollState) (w : W) : bool * ScrollState * W :=
  let attempts := scroll_attempts st + 1 in
  let '(current_count, w) := advance_and_count st w in
  if _has_new_comments current_count (last_comment_count st) then
    (false,
     {| last_comment_count := current_count; scroll_attempts := attempts;
        no_new_comments_count := 0 |}, w)
  else
    let no_new := no_new_comments_count st + 1 in
    let w :=
      if (MAX_NO_NEW_COMMENTS cfg / 2 <=? no_new) && (last_comment_count st <? 50)
      then _extra_patient_scroll w else w in
    let '(stop, w) := _should_stop_scrolling no_new (last_comment_count st) w in
    (stop,
     {| last_comment_count := last_comment_count st; scroll_attempts := attempts;
        no_new_comments_count := no_new |}, w).

(** [while scroll_attempts < config.MAX_SCROLL_ATTEMPTS: ...]; [fuel]
    bounds the turns and is never the reason to stop when it is at least
    [MAX_SCROLL_ATTEMPTS - scroll_attempts]. *)
Fixpoint scroll_loop (fuel : nat) (st : ScrollState) (w : W) : ScrollState * W :=
  match fuel with
  | O => (st, w)
  | S fuel' =>
      if scroll_attempts st <? MAX_SCROLL_ATTEMPTS cfg then
        let '(stop, st, w) := scroll_iteration st w in
        if stop then (st, w) else scroll_loop fuel' st w
      else (st, w)
  end.

(** The locals after each turn of that loop, in order. *)
Fixpoint scroll_history (fuel : nat) (st : ScrollState) (w : W) : list ScrollState :=
  match fuel with
  | O => []
  | S fuel' =>
      if scroll_attempts st <? MAX_SCROLL_ATTEMPTS cfg then
        let '(stop, st, w) := scroll_iteration st w in
        st :: (if stop then [] else scroll_history fuel' st w)
      else []
  end.

Definition initial_scroll_state (w : W) : ScrollState :=
  {| last_comment_count := len (_get_current_comments w);
     scroll_attempts := 0;
     no_new_comments_count := 0 |}.

Definition _perform_smart_scroll (w : W) : Z * W :=
  let '(st, w) :=
    scroll_loop (Z.to_nat (MAX_SCROLL_ATTEMPTS cfg)) (initial_scroll_state w) w in
  (last_comment_count st, w).

(** [for _ in range(n)] of [_scroll_to_comments_section]. *)
Fixpoint initial_scrolls (n : nat) (w : W) : W :=
  match n with
  | O => w
  | S n' => initial_scrolls n' (sleep 1 (execute_script (ScrollBy 500) w))
  end.

Definition _scroll_to_comments_section (w : W) : bool * W :=
  let w := initial_scrolls (Z.to_nat (INITIAL_SCROLL_ATTEMPTS cfg)) w in
  let '(found, w) := wait_until_present "comments" w in
  if found then (true, sleep 3 (execute_script (ScrollIntoViewCenter "comments") w))
  else (false, w).

Definition smart_infinite_scroll (w : W) : bool * W :=
  let '(found, w) := _scroll_to_comments_section w in
  if negb found then (false, w)
  else
    let '(comment_count, w) := _perform_smart_scroll w in
    (0 <? comment_count, w).

(** ** Run orchestrator *)

Definition check_video_availability (url : cell) (w : W) : bool * W :=
  match drv_get url w with
  | (Ok _, w) => wait_until_present "movie_player" (sleep (PAGE_LOAD_WAIT cfg) w)
  | (Raise _, w) => (false, w)
  end.

Record FailedVideo : Type := {
  failed_url : cell;
  reason : string;
  failed_at : Z
}.

(** The entry [scrape_video_comments] appends for an unavailable video. *)
Definition unavailable (url : cell) (t : Z) : FailedVideo :=
  {| failed_url := url; reason := "Video unavailable"; failed_at := t |}.

(** The scraper object: its browser and its three lists. *)
Record Scraper : Type := {
  driver : W;
  all_comments : list CommentRecord;
  processed_videos : list cell;
  failed_videos : list FailedVideo
}.

Definition with_driver (w : W) (self : Scraper) : Scraper :=
  {| driver := w; all_comments := all_comments self;
     processed_videos := processed_videos self; failed_videos := failed_videos self |}.

(** [scrape_video_comments].  No browser call after the availability
    check raises here, so its [except] branch is not met. *)
Definition scrape_video_comments (url : cell) (video_data : gmap string cell)
    (self : Scraper) : list CommentRecord * Scraper :=
  let '(available, w) := check_video_availability url (driver self) in
  if negb available then
    let '(t, w) := now w in
    ([], {| driver := w; all_comments := all_comments self;
            processed_videos := processed_videos self;
            failed_videos := failed_videos self ++ [unavailable url t] |})
  else
    let '(loaded, w) := smart_infinite_scroll w in
    if negb loaded then ([], with_driver w self)
    else
      let comment_elements := _get_current_comments w in
      let '(video_comments, w) :=
        _process_comment_elements comment_elements video_data url w in
      (video_comments, with_driver w self).

(** One turn of the [for index, row in df_filtered.iterrows()] loop.  A
    row without a URL raises [KeyError]: logged, [continue].  Writing
    [progress.json] is left out. *)
Definition process_row (row : Row) (self : Scraper) : Scraper :=
  match row_cells row !! "URL" with
  | None => self
  | Some url =>
      let '(comments, self) := scrape_video_comments url (row_cells row) self in
      let self :=
        match comments with
        | [] => self
        | _ =>
            {| driver := driver self;
               all_comments := all_comments self ++ comments;
               processed_videos := processed_videos self ++ [url];
               failed_videos := failed_videos self |}
        end in
      with_driver (sleep (VIDEO_DELAY cfg) (driver self)) self
  end.

Definition process_rows (rows : list Row) (self : Scraper) : Scraper :=
  fold_left (fun self row => process_row row self) rows self.

(** [process_videos], from the table read to the comments handed to
    [save_results]; the user's interrupt is not modelled. *)
Definition process_videos (df : DataFrame) (self : Scraper) : result Scraper :=
  bind (apply_video_filters cfg df) (fun df_filtered =>
  Ok (process_rows (df_rows df_filtered) self)).

End Scraper.

(** ** A scripted browser

    A small site to run the scraper on: every video says whether its
    player and its comment region show up, which comment threads it has
    and how many more each advance step reveals, and what the probes for
    related videos and continuation items count.  The world keeps the
    list of what was done to it. *)

Module Sim.

Record Video : Type := {
  player : bool;
  comments_region : bool;
  threads : list CommentThread;
  first_batch : nat;
  batch : nat;
  related : nat;
  continuation : nat
}.

Inductive action : Type :=
| Get (url : cell)
| Exec (s : script)
| Advance
| Recover
| Sleep (seconds : Z).

Record World : Type := {
  site : list (string * Video);
  current : option Video;
  loaded : nat;
  clock : Z;
  actions : list action
}.

Definition did (a : action) (w : World) : World :=
  {| site := site w; current := current w; loaded := loaded w;
     clock := clock w; actions := actions w ++ [a] |}.

Fixpoint lookup_video (u : string) (vs : list (string * Video)) : option Video :=
  match vs with
  | [] => None
  | (u', v) :: vs' => if String.eqb u u' then Some v else lookup_video u vs'
  end.

Definition open (url : cell) (w : World) : result unit * World :=
  match url with
  | CStr u =>
      match lookup_video u (site w) with
      | Some v =>
          (Ok tt,
           {| site := site w; current := Some v; loaded := first_batch v;
              clock := clock w; actions := actions w ++ [Get url] |})
      | None => (Raise WebDriverException, did (Get url) w)
      end
  | _ => (Raise WebDriverException, did (Get url) w)
  end.

Definition present (id : string) (w : World) : bool :=
  match current w with
  | Some v =>
      if String.eqb id "movie_player" then player v
      else if String.eqb id "comments" then comments_region v
      else false
  | None => false
  end.

Definition count (selector : string) (w : World) : nat :=
  match current w with
  | Some v =>
      if String.eqb selector "ytd-compact-video-renderer" then related v
      else if String.eqb selector "#comments" then (if comments_region v then 1 else 0)%nat
      else if String.eqb selector "ytd-continuation-item-renderer" then continuation v
      else 0%nat
  | None => 0%nat
  end.

Definition visible (w : World) : list CommentThread :=
  match current w with
  | Some v => take (loaded w) (threads v)
  | None => []
  end.

Definition advance (w : World) : bool * World :=
  (true,
   {| site := site w; current := current w;
      loaded := (loaded w + match current w with Some v => batch v | None => 0 end)%nat;
      clock := clock w; actions := actions w ++ [Advance] |}).

Definition wait (seconds : Z) (w : World) : World :=
  {| site := site w; current := current w; loaded := loaded w;
     clock := clock w + seconds; actions := actions w ++ [Sleep seconds] |}.

#[global] Instance browser : Browser World := {|
  drv_get := open;
  wait_until_present := fun id w => (present id w, w);
  execute_script := fun s w => did (Exec s) w;
  count_elements := count;
  find_comment_threads := visible;
  sleep := wait;
  now := fun w => (clock w, w);
  _youtube_specific_scroll := advance;
  _extra_patient_scroll := did Recover
|}.

Definition start (videos : list (string * Video)) : World :=
  {| site := videos; current := None; loaded := 0%nat; clock := 0; actions := [] |}.

Definition fresh (videos : list (string * Video)) : Scraper :=
  {| driver := start videos; all_comments := []; processed_videos := [];
     failed_videos := [] |}.

(** A thread whose comment has the given fields and nothing else. *)
Definition thread (text : string) (author : string) (likes : string) : CommentThread :=
  {| comment :=
       Some {| content_text := Some text; author_text := Some author;
               vote_count_middle := Some likes; more_replies := None;
               published_time_text := None; dislike_label := false;
               pinned_label := false; creator_heart := false |} |}.

(** A thread with a [#comment] element in which no selector matches. *)
Definition bare_thread : CommentThread :=
  {| comment :=
       Some {| content_text := None; author_text := None;
               vote_count_middle := None; more_replies := None;
               published_time_text := None; dislike_label := false;
               pinned_label := false; creator_heart := false |} |}.

(** A thread without a [#comment] element. *)
Definition broken_thread : CommentThread := {| comment := None |}.

Definition video (ts : list CommentThread) : Video :=
  {| player := true; comments_region := true; threads := ts;
     first_batch := 1; batch := 2; related := 20; continuation := 0 |}.

Definition removed_video : Video :=
  {| player := false; comments_region := false; threads := [];
     first_batch := 0; batch := 0; related := 0; continuation := 0 |}.

(** No filter bound, patience 20, at most 50 turns. *)
Definition patient : Config := {|
  DEFAULT_TIMEOUT := 10;
  PAGE_LOAD_WAIT := 3;
  MAX_SCROLL_ATTEMPTS := 50;
  SCROLL_DELAY := 2;
  INITIAL_SCROLL_ATTEMPTS := 5;
  MAX_NO_NEW_COMMENTS := 20;
  VIDEO_DELAY := 2;
  MIN_COMMENTS := 0;
  MIN_LIKES := 0;
  MIN_VIEWS := 0;
  MAX_COMMENTS := None;
  MAX_LIKES := None;
  MAX_VIEWS := None
|}.

(** A page scrolled past its three comments: twenty related videos,
    no comment region and no continuation item in sight. *)
Definition trailing_page : World :=
  {| site := [];
     current :=
       Some {| player := true; comments_region := false;
               threads := [thread "a" "ann" "1"; thread "b" "bob" "2";
                           thread "c" "cy" "3"];
               first_batch := 3; batch := 0; related := 20; continuation := 0 |};
     loaded := 3; clock := 0; actions := [] |}.

Definition is_sleep (seconds : Z) (a : action) : bool :=
  match a with
  | Sleep n => n =? seconds
  | _ => false
  end.

Definition is_advance (a : action) : bool :=
  match a with
  | Advance => true
  | _ => false
  end.

(** Three videos, the second one removed. *)
Definition three_videos : list (string * Video) :=
  [("u1", video [thread "a" "ann" "1.2K"; bare_thread; thread "b" "bob" "3"]);
   ("u2", removed_video);
   ("u3", video [broken_thread; thread "c" "cy" "7"])].

Definition table_row (i : Z) (url comments likes views : string) : Row :=
  {| row_index := i;
     row_cells := {[ "URL" := CStr url; col_comments := CStr comments;
                     col_likes := CStr likes; col_views := CStr views ]} |}.

Definition table (rows : list Row) : DataFrame :=
  {| df_columns := ["URL"; col_comments; col_likes; col_views]; df_rows := rows |}.

Definition row1 : Row := table_row 0 "u1" "1,234" "5" "1000".
Definition row2 : Row := table_row 1 "u2" "20" "5" "900".
Definition row3 : Row := table_row 2 "u3" "30" "7" "600".

Definition three_rows : list Row := [row1; row2; row3].

(** A table that already has a column under the first helper's name. *)
Definition clashing_table : DataFrame :=
  {| df_columns := ["URL"; col_comments; col_likes; col_views; int_comments];
     df_rows :=
       [{| row_index := 0;
           row_cells := {[ "URL" := CStr "u1"; col_comments := CStr "12";
                           col_likes := CStr "3"; col_views := CStr "700";
                           int_comments := CStr "mine" ]} |}] |}.

End Sim.

(** ** Texts of digits *)

(** The number a run of decimal digits writes, continuing [acc]. *)
Fixpoint decimal_from (acc : Z) (s : string) : Z :=
  match s with
  | String c s' => decimal_from (10 * acc + digit_value c) s'
  | EmptyString => acc
  end.

Definition decimal_value (s : string) : Z := decimal_from 0 s.

(** Every character of [s] satisfies [p]. *)
Fixpoint all_chars (p : ascii -> bool) (s : string) : bool :=
  match s with
  | String c s' => p c && all_chars p s'
  | EmptyString => true
  end.


(** ** Rows within the bounds *)

(** The six bounds of the configuration on the parsed metrics of a row. *)
Definition within_bounds (cfg : Config) (r : Row) : Prop :=
  meets_minimum (MIN_COMMENTS cfg) (metric col_comments r)
  /\ meets_minimum (MIN_LIKES cfg) (metric col_likes r)
  /\ meets_minimum (MIN_VIEWS cfg) (metric col_views r)
  /\ meets_maximum (MAX_COMMENTS cfg) (metric col_comments r)
  /\ meets_maximum (MAX_LIKES cfg) (metric col_likes r)
  /\ meets_maximum (MAX_VIEWS cfg) (metric col_views r).

#[global] Instance within_bounds_dec (cfg : Config) (r : Row) :
  Decision (within_bounds cfg r).
Proof. unfold within_bounds. apply _. Defined.

(** ** Counting the advance steps *)

(** Any browser with a counter beside it: the counter goes up by one at
    each advance step [_youtube_specific_scroll]; everything else is the
    browser's own. *)
Definition counting {W : Type} (B : Browser W) : Browser (W * nat) := {|
  drv_get := fun url wn => ((drv_get url wn.1).1, ((drv_get url wn.1).2, wn.2));
  wait_until_present :=
    fun id wn => ((wait_until_present id wn.1).1, ((wait_until_present id wn.1).2, wn.2));
  execute_script := fun s wn => (execute_script s wn.1, wn.2);
  count_elements := fun selector wn => count_elements selector wn.1;
  find_comment_threads := fun wn => find_comment_threads wn.1;
  sleep := fun seconds wn => (sleep seconds wn.1, wn.2);
  now := fun wn => ((now wn.1).1, ((now wn.1).2, wn.2));
  _youtube_specific_scroll :=
    fun wn => ((_youtube_specific_scroll wn.1).1,
               ((_youtube_specific_scroll wn.1).2, S wn.2));
  _extra_patient_scroll := fun wn => (_extra_patient_scroll wn.1, wn.2)
|}.

(** ** A video whose comments are turned off *)

(** The player shows up, the comment region never does. *)
Definition comments_off_video : Sim.Video :=
  {| Sim.player := true; Sim.comments_region := false; Sim.threads := [];
     Sim.first_batch := 0; Sim.batch := 0; Sim.related := 20; Sim.continuation := 0 |}.

(** ** The ends of a text *)

Definition first_char (s : string) : option ascii :=
  match s with
  | String c _ => Some c
  | EmptyString => None
  end.

Fixpoint last_char (s : string) : option ascii :=
  match s with
  | String c s' =>
      match s' with
      | EmptyString => Some c
      | String _ _ => last_char s'
      end
  | EmptyString => None
  end.

(** ** The table of comments *)

(** The keys of a comment, in the order [extract_comment_data] and then
    [_build_video_metadata] insert them. *)
Definition comment_keys : list string :=
  ["comment_text"; "author_name"; "upvotes"; "downvotes"; "has_dislike_button";
   "reply_count"; "timestamp"; "is_pinned"; "is_hearted";
   "video_no"; "video_date"; "channel_name"; "video_title"; "video_url";
   "total_comments"; "total_likes"; "total_views"; "scraped_at"; "comment_position"].

Definition comment_cells (c : CommentRecord) : list (string * cell) :=
  [("comment_text", CStr (comment_text (data c)));
   ("author_name", CStr (author_name (data c)));
   ("upvotes", CInt (upvotes (data c)));
   ("downvotes", CInt (downvotes (data c)));
   ("has_dislike_button", CBool (has_dislike_button (data c)));
   ("reply_count", CInt (reply_count (data c)));
   ("timestamp", CStr (timestamp (data c)));
   ("is_pinned", CBool (is_pinned (data c)));
   ("is_hearted", CBool (is_hearted (data c)));
   ("video_no", video_no (meta c));
   ("video_date", video_date (meta c));
   ("channel_name", channel_name (meta c));
   ("video_title", video_title (meta c));
   ("video_url", video_url (meta c));
   ("total_comments", total_comments (meta c));
   ("total_likes", total_likes (meta c));
   ("total_views", total_views (meta c));
   ("scraped_at", CInt (scraped_at (meta c)));
   ("comment_position", CInt (comment_position (meta c)))].

(** A comment as the row of [pd.DataFrame(self.all_comments)] at place
    [i]; the instant [scraped_at] stands for its text. *)
Definition comment_row (i : nat) (c : CommentRecord) : Row :=
  {| row_index := Z.of_nat i; row_cells := list_to_map (comment_cells c) |}.

(** [pd.DataFrame(comments)]: every comment has the same keys. *)
Definition frame_of_comments (comments : list CommentRecord) : DataFrame :=
  {| df_columns := match comments with [] => [] | _ => comment_keys end;
     df_rows := imap comment_row comments |}.

(** [df[names]] for a list of names of columns of the frame. *)
Definition df_select (names : list string) (df : DataFrame) : DataFrame :=
  {| df_columns := names;
     df_rows :=
       map (set_cells (filter (fun kv : string * cell => kv.1 ∈ names))) (df_rows df) |}.

Definition column_order : list string :=
  ["video_no"; "video_date"; "channel_name"; "video_title"; "video_url";
   "total_comments"; "total_likes"; "total_views";
   "comment_position"; "comment_text"; "author_name";
   "upvotes"; "downvotes"; "reply_count"; "timestamp";
   "is_pinned"; "is_hearted"; "has_dislike_button"; "scraped_at"].

Definition _reorder_dataframe_columns (df : DataFrame) : DataFrame :=
  let existing_columns := filter (fun col => col ∈ df_columns df) column_order in
  df_select existing_columns df.

(** [save_results]: the table it writes to the CSV file, and [None]
    where it writes none. *)
Definition save_results {W : Type} (self : @Scraper W) : option DataFrame :=
  match all_comments self with
  | [] => None
  | comments => Some (_reorder_dataframe_columns (frame_of_comments comments))
  end.

(** ** The video id of a URL *)

(** [s] with the prefix [p] taken off, when it begins with [p]. *)
Fixpoint strip_prefix (p s : string) : option string :=
  match p with
  | EmptyString => Some s
  | String a p' =>
      match s with
      | String b s' => if Ascii.eqb a b then strip_prefix p' s' else None
      | EmptyString => None
      end
  end.

(** [s.split(sep, 1)] when [sep] occurs in [s]: what is before its first
    occurrence and what is after it. *)
Fixpoint partition (sep s : string) : option (string * string) :=
  match strip_prefix sep s with
  | Some rest => Some (EmptyString, rest)
  | None =>
      match s with
      | String c s' =>
          match partition sep s' with
          | Some (before, rest) => Some (String c before, rest)
          | None => None
          end
      | EmptyString => None
      end
  end.

(** [s.split(sep)[1]]; [None] is the [IndexError]. *)
Definition split_second (sep s : string) : option string :=
  match partition sep s with
  | Some (_, rest) =>
      Some (match partition sep rest with
            | Some (before, _) => before
            | None => rest
            end)
  | None => None
  end.

(** [s.split(sep)[0]] *)
Definition split_first (sep s : string) : string :=
  match partition sep s with
  | Some (before, _) => before
  | None => s
  end.

(** [str(n)] *)
Definition str_of_int (n : Z) : string :=
  DecimalString.NilZero.string_of_int (Z.to_int n).

(** [_extract_video_id] of a text; [hash] is the interpreter's, which
    differs from run to run. *)
Definition _extract_video_id (hash : string -> Z) (url : string) : string :=
  match split_second "v=" url with
  | Some tail => split_first "&" tail
  | None => "unknown_" ++ str_of_int (hash url mod 10000)
  end.

Definition id_char (c : ascii) : bool :=
  negb (Ascii.eqb c "&" || Ascii.eqb c "=").

(** * Properties *)

(** ** Count parser *)

Section CountParser.

Lemma try_except_total (r : result Z) : exists n, try_except r (Ok 0) = Ok n.
Proof. destruct r as [n | e]; [exists n | exists 0]; reflexivity. Qed.

Lemma parse_suffixed_total (ms : list (ascii * Z)) (t : string) (r : result Z) :
  parse_suffixed ms t = Some r -> exists n, r = Ok n.
Proof.
  induction ms as [| [suffix multiplier] ms IH]; cbn [parse_suffixed]; [discriminate |].
  destruct (contains_char suffix t); [| exact IH].
  intros [= <-]. apply try_except_total.
Qed.

(** C3: the four test vectors; [_parse_count] returns an integer on
    every text, so no exception reaches the caller; and whenever the
    conversion it attempts (scaled by K, scaled by M, or plain) raises,
    the result is 0. *)
Theorem parse_count_vectors_and_totality :
  _parse_count "1.2K" = Ok 1200
  /\ _parse_count "950" = Ok 950
  /\ _parse_count "" = Ok 0
  /\ _parse_count "abc" = Ok 0
  /\ (forall s, exists n, _parse_count s = Ok n)
  /\ (forall s e,
        s <> "" ->
        contains_char "K" (normalised s) = true ->
        scaled "K" 1000 (normalised s) = Raise e ->
        _parse_count s = Ok 0)
  /\ (forall s e,
        s <> "" ->
        contains_char "K" (normalised s) = false ->
        contains_char "M" (normalised s) = true ->
        scaled "M" 1000000 (normalised s) = Raise e ->
        _parse_count s = Ok 0)
  /\ (forall s e,
        s <> "" ->
        contains_char "K" (normalised s) = false ->
        contains_char "M" (normalised s) = false ->
        int_of_str (normalised s) = Raise e ->
        _parse_count s = Ok 0).
Proof.
  split; [vm_compute; reflexivity |].
  split; [vm_compute; reflexivity |].
  split; [vm_compute; reflexivity |].
  split; [vm_compute; reflexivity |].
  repeat split.
  - intros s. unfold _parse_count.
    destruct (String.eqb s ""); [exists 0; reflexivity |].
    destruct (parse_suffixed multipliers _) as [r |] eqn:E.
    + exact (parse_suffixed_total _ _ _ E).
    + apply try_except_total.
  - intros s e Hs HK Hraise. unfold _parse_count.
    apply String.eqb_neq in Hs. rewrite Hs.
    cbn [parse_suffixed multipliers]. rewrite HK, Hraise. reflexivity.
  - intros s e Hs HK HM Hraise. unfold _parse_count.
    apply String.eqb_neq in Hs. rewrite Hs.
    cbn [parse_suffixed multipliers]. rewrite HK, HM, Hraise. reflexivity.
  - intros s e Hs HK HM Hraise. unfold _parse_count.
    apply String.eqb_neq in Hs. rewrite Hs.
    cbn [parse_suffixed multipliers]. rewrite HK, HM, Hraise. reflexivity.
Qed.

(** The count parser on a few more texts: a million suffix, a thousands
    separator, and a product that binary64 rounds below 1001. *)
Example parse_count_more :
  _parse_count "3M" = Ok 3000000
  /\ _parse_count "1,234" = Ok 1234
  /\ _parse_count "1.5k" = Ok 1500
  /\ _parse_count "1.001K" = Ok 1000.
Proof. vm_compute. repeat split. Qed.

Example parse_reply_count_vectors :
  _parse_reply_count "12 replies" = Ok 12
  /\ _parse_reply_count "Reply" = Ok 0
  /\ _parse_reply_count "View 3 replies" = Ok 3.
Proof. vm_compute. repeat split. Qed.

End CountParser.

(** ** Extraction pipeline *)

Section Extraction.

Context {W : Type} `{Browser W}.

Lemma extract_comment_data_text (e : CommentElement) (d : CommentData) :
  extract_comment_data e = Some d ->
  comment_text d = or_default (stripped_text (content_text e)) ""
  /\ comment_text d <> "".
Proof.
  cbv beta iota zeta delta
    [extract_comment_data _extract_basic_comment_info
     _extract_engagement_metrics _extract_comment_metadata comment_text].
  destruct (String.eqb _ "") eqn:E; [discriminate |].
  intros [= <-]. split; [reflexivity |].
  apply String.eqb_neq. exact E.
Qed.

Lemma extract_comment_data_defaults (e : CommentElement) (d : CommentData) :
  extract_comment_data e = Some d ->
  downvotes d = 0
  /\ (author_text e = None -> author_name d = "")
  /\ (vote_count_middle e = None -> upvotes d = 0)
  /\ (more_replies e = None -> reply_count d = 0)
  /\ (published_time_text e = None -> timestamp d = "")
  /\ has_dislike_button d = dislike_label e
  /\ is_pinned d = pinned_label e
  /\ is_hearted d = creator_heart e.
Proof.
  cbv beta iota zeta delta
    [extract_comment_data _extract_basic_comment_info
     _extract_engagement_metrics _extract_comment_metadata comment_text].
  destruct (String.eqb _ "") eqn:E; [discriminate |].
  intros [= <-].
  cbv beta iota delta
    [downvotes author_name upvotes reply_count timestamp has_dislike_button
     is_pinned is_hearted _has_dislike_button _is_comment_pinned _is_comment_hearted].
  repeat split; intros ->; reflexivity.
Qed.

Lemma process_from_urls (elements : list CommentThread) (vd : gmap string cell)
    (url : cell) :
  forall (i : Z) (w : W),
    Forall (fun c => video_url (meta c) = default url (vd !! "URL"))
           (process_from i elements vd url w).1.
Proof.
  induction elements as [| t rest IH]; intros i w; cbn [process_from];
    [constructor |].
  destruct (comment t) as [main |]; [| apply IH].
  destruct (extract_comment_data main) as [d |]; [| apply IH].
  unfold _build_video_metadata. destruct (now w) as [time w1].
  specialize (IH (i + 1) w1).
  destruct (process_from (i + 1) rest vd url w1) as [out w2].
  cbn [fst] in *. constructor; [reflexivity | exact IH].
Qed.

(** What [process_from] returns, thread by thread. *)
Lemma process_from_spec (elements : list CommentThread) (vd : gmap string cell)
    (url : cell) :
  forall (i : Z) (w : W),
    map data (process_from i elements vd url w).1 = omap extract_thread elements
    /\ map position (process_from i elements vd url w).1
       = map fst (filter (fun p => is_Some (extract_thread p.2))
                         (enumerate (i + 1) elements)).
Proof.
  induction elements as [| t rest IH]; intros i w; [split; reflexivity |].
  cbn [process_from enumerate omap list_omap].
  unfold extract_thread at 1 3. rewrite filter_cons. cbn [snd].
  destruct (comment t) as [main |] eqn:Ec.
  - destruct (extract_comment_data main) as [d |] eqn:Ed.
    + unfold _build_video_metadata. destruct (now w) as [time w1].
      specialize (IH (i + 1) w1).
      destruct (process_from (i + 1) rest vd url w1) as [out w2].
      destruct IH as [IHd IHp]. cbn [fst map] in *.
      rewrite decide_True by (unfold extract_thread; rewrite Ec, Ed; eauto).
      cbn [map fst]. unfold position at 1. cbn [meta comment_position data].
      rewrite IHd, IHp. split; reflexivity.
    + rewrite decide_False
        by (unfold extract_thread; rewrite Ec, Ed; intros [? ?]; discriminate).
      apply IH.
  - rewrite decide_False
      by (unfold extract_thread; rewrite Ec; intros [? ?]; discriminate).
    apply IH.
Qed.

Lemma enumerate_filter_positions {A : Type} (P : Z * A -> Prop)
    `{!forall p, Decision (P p)} (l : list A) :
  forall i : Z,
    StronglySorted Z.lt (map fst (filter P (enumerate i l)))
    /\ Forall (fun p => i <= p < i + Z.of_nat (length l))
              (map fst (filter P (enumerate i l))).
Proof.
  induction l as [| x l IH]; intros i; cbn [enumerate].
  - rewrite filter_nil. split; constructor.
  - destruct (IH (i + 1)) as [IHs IHb].
    assert (Hb : Forall (fun p => i < p < i + Z.of_nat (length (x :: l)))
                        (map fst (filter P (enumerate (i + 1) l)))).
    { eapply Forall_impl; [exact IHb |]. cbn [length]. intros q Hq. cbv beta in Hq. lia. }
    rewrite filter_cons. destruct (decide (P (i, x))).
    + cbn [map fst]. split.
      * constructor; [exact IHs |].
        eapply Forall_impl; [exact Hb |]. intros q Hq. cbv beta in Hq. lia.
      * constructor; [cbn [length]; lia |].
        eapply Forall_impl; [exact Hb |]. intros q Hq. cbv beta in Hq. lia.
    + split; [exact IHs |].
      eapply Forall_impl; [exact Hb |]. intros q Hq. cbv beta in Hq. lia.
Qed.

Lemma filter_keeps_all {A : Type} (P : A -> Prop) `{!forall x, Decision (P x)}
    (l : list A) :
  length (filter P l) = length l -> filter P l = l.
Proof.
  induction l as [| x l IH]; [reflexivity |].
  rewrite filter_cons. destruct (decide (P x)); cbn [length].
  - intros [= Hl]. f_equal. exact (IH Hl).
  - intros Hl. pose proof (length_filter P l). lia.
Qed.

Lemma enumerate_positions {A : Type} (l : list A) :
  forall i : nat,
    map fst (enumerate (Z.of_nat i) l) = map Z.of_nat (seq i (length l)).
Proof.
  induction l as [| x l IH]; intros i; [reflexivity |].
  cbn [enumerate map fst length seq]. f_equal.
  replace (Z.of_nat i + 1) with (Z.of_nat (S i)) by lia. apply IH.
Qed.

Lemma enumerate_length {A : Type} (l : list A) :
  forall i : Z, length (enumerate i l) = length l.
Proof.
  induction l as [| x l IH]; intros i; [reflexivity |].
  cbn [enumerate length]. f_equal. apply IH.
Qed.

Lemma omap_length_filter {A B : Type} (f : A -> option B) (l : list A) :
  length (omap f l) = length (filter (fun x => is_Some (f x)) l).
Proof.
  induction l as [| x l IH]; [reflexivity |].
  cbn [omap list_omap]. rewrite filter_cons.
  destruct (f x) as [y |] eqn:E.
  - rewrite decide_True by eauto. cbn [length]. f_equal. exact IH.
  - rewrite decide_False by (intros [? ?]; discriminate). exact IH.
Qed.

Lemma omap_Forall {A B : Type} (f : A -> option B) (P : B -> Prop) (l : list A) :
  (forall x y, f x = Some y -> P y) -> Forall P (omap f l).
Proof.
  intros HP. induction l as [| x l IH]; [constructor |].
  cbn [omap list_omap]. destruct (f x) as [y |] eqn:E; [| exact IH].
  constructor; [exact (HP x y E) | exact IH].
Qed.

Lemma extract_thread_text (t : CommentThread) (d : CommentData) :
  extract_thread t = Some d -> comment_text d <> "".
Proof.
  unfold extract_thread. destruct (comment t) as [e |]; [| discriminate].
  intros Hd. exact (proj2 (extract_comment_data_text e d Hd)).
Qed.

(** C2: a comment element whose text is missing, or empty once stripped,
    yields no record; every record that is extracted, and every record
    the batch extraction emits, has a text that is not empty; and an
    element with a text yields a record whatever else is missing, the
    missing author, vote count, reply count and timestamp defaulting to
    the empty text or 0, the down votes being 0 and the three flags
    telling whether their marker is there. *)
Theorem record_requires_text_only :
  (forall e : CommentElement,
      (content_text e = None \/ exists t, content_text e = Some t /\ strip t = "") ->
      extract_comment_data e = None)
  /\ (forall (e : CommentElement) (d : CommentData),
        extract_comment_data e = Some d -> comment_text d <> "")
  /\ (forall (elements : list CommentThread) (vd : gmap string cell) (url : cell) (w : W),
        Forall (fun r => comment_text (data r) <> "")
               (_process_comment_elements elements vd url w).1)
  /\ (forall (e : CommentElement) (t : string),
        content_text e = Some t -> strip t <> "" ->
        exists d : CommentData,
          extract_comment_data e = Some d
          /\ comment_text d = strip t
          /\ downvotes d = 0
          /\ (author_text e = None -> author_name d = "")
          /\ (vote_count_middle e = None -> upvotes d = 0)
          /\ (more_replies e = None -> reply_count d = 0)
          /\ (published_time_text e = None -> timestamp d = "")
          /\ has_dislike_button d = dislike_label e
          /\ is_pinned d = pinned_label e
          /\ is_hearted d = creator_heart e).
Proof.
  split; [| split; [| split]].
  - intros e Hmissing.
    destruct (extract_comment_data e) as [d |] eqn:Ed; [| reflexivity].
    destruct (extract_comment_data_text e d Ed) as [Htext Hne].
    exfalso. apply Hne. rewrite Htext.
    destruct Hmissing as [-> | (t & -> & Ht)]; [reflexivity | exact Ht].
  - intros e d Hd. exact (proj2 (extract_comment_data_text e d Hd)).
  - intros elements vd url w. unfold _process_comment_elements.
    apply (proj1 (List.Forall_map data (fun d => comment_text d <> "") _)).
    rewrite (proj1 (process_from_spec elements vd url 0 w)).
    apply omap_Forall. exact extract_thread_text.
  - intros e t Ht Hne.
    destruct (extract_comment_data e) as [d |] eqn:Ed.
    + exists d. destruct (extract_comment_data_text e d Ed) as [Htext _].
      rewrite Ht in Htext. split; [reflexivity |]. split; [exact Htext |].
      exact (extract_comment_data_defaults e d Ed).
    + exfalso. revert Ed.
      cbv beta iota zeta delta
        [extract_comment_data _extract_basic_comment_info
         _extract_engagement_metrics _extract_comment_metadata comment_text].
      rewrite Ht. cbn [stripped_text or_default].
      apply String.eqb_neq in Hne. rewrite Hne. discriminate.
Qed.

(** C1, as amended: batch extraction returns one record for each thread
    that extracts with a text, in the threads' order: M records when M
    threads do.  A record's position is the 1-based place of its thread
    in the batch, so the positions increase strictly and lie within
    1..N; they are 1..M when every thread extracts.  A thread that
    fails is passed over and the threads after it are still read.
    Every record bears the URL of the video's metadata, or the URL
    passed along when the metadata has none. *)
Theorem positions_are_places_in_batch
    (elements : list CommentThread) (vd : gmap string cell) (url : cell) (w : W) :
  let out := (_process_comment_elements elements vd url w).1 in
  map data out = omap extract_thread elements
  /\ length out = length (filter (fun t => is_Some (extract_thread t)) elements)
  /\ map position out
     = map fst (filter (fun p => is_Some (extract_thread p.2)) (enumerate 1 elements))
  /\ StronglySorted Z.lt (map position out)
  /\ Forall (fun p => 1 <= p <= len elements) (map position out)
  /\ (length out = length elements ->
      map position out = map Z.of_nat (seq 1 (length out)))
  /\ Forall (fun r => video_url (meta r) = default url (vd !! "URL")) out.
Proof.
  intros out. subst out. unfold _process_comment_elements.
  pose proof (process_from_urls elements vd url 0 w) as Hurls.
  destruct (process_from_spec elements vd url 0 w) as [Hd Hp].
  change (0 + 1) with 1 in Hp.
  set (out := (process_from 0 elements vd url w).1) in *.
  assert (Hlen : length out = length (omap extract_thread elements))
    by (rewrite <- Hd; symmetry; apply length_map).
  destruct (enumerate_filter_positions
              (fun p : Z * CommentThread => is_Some (extract_thread p.2)) elements 1)
    as [Hsorted Hbound].
  split; [exact Hd |]. split; [rewrite Hlen; apply omap_length_filter |].
  split; [exact Hp |]. rewrite Hp.
  split; [exact Hsorted |].
  split; [| split; [| exact Hurls]].
  - eapply Forall_impl; [exact Hbound |]. unfold len. intros q Hq. cbv beta in Hq. lia.
  - intros Hall.
    assert (Hkeep : filter (fun p : Z * CommentThread => is_Some (extract_thread p.2))
                           (enumerate 1 elements) = enumerate 1 elements).
    { apply filter_keeps_all. rewrite enumerate_length, <- Hall.
      rewrite <- (length_map position out), Hp. symmetry. apply length_map. }
    rewrite Hkeep, Hall. exact (enumerate_positions elements 1).
Qed.

End Extraction.

(** C1, as first stated, fails: of two threads, the first with no text
    and the second with one, the single record returned has position 2,
    not 1. *)
Lemma position_counts_failed_threads :
  let out :=
    (_process_comment_elements [Sim.bare_thread; Sim.thread "hello" "ann" "3"]
       ∅ (CStr "u") (Sim.start [])).1 in
  length out = 1%nat
  /\ map position out = [2]
  /\ map position out <> map Z.of_nat (seq 1 (length out)).
Proof. vm_compute. repeat split; discriminate. Qed.

(** The amended statement at three threads, the middle one without a
    [#comment] element. *)
Lemma positions_are_places_in_batch_witness :
  map position
      (_process_comment_elements
         [Sim.thread "a" "ann" "1"; Sim.broken_thread; Sim.thread "b" "bob" "2"]
         ∅ (CStr "u") (Sim.start [])).1
  = [1; 3].
Proof.
  pose proof (positions_are_places_in_batch
                [Sim.thread "a" "ann" "1"; Sim.broken_thread; Sim.thread "b" "bob" "2"]
                ∅ (CStr "u") (Sim.start [])) as (_ & _ & Hp & _).
  rewrite Hp. vm_compute. reflexivity.
Defined.

(** ** Video filter *)

Section VideoFilter.

Lemma metric_names_not_helpers (col : string) :
  col ∈ [col_comments; col_likes; col_views] -> col ∉ helper_columns.
Proof.
  intros Hc Hh.
  repeat (apply elem_of_cons in Hc; destruct Hc as [-> | Hc]);
    try (apply elem_of_nil in Hc; contradiction);
    repeat (apply elem_of_cons in Hh; destruct Hh as [Hh | Hh]; [discriminate Hh |]);
    apply elem_of_nil in Hh; contradiction.
Qed.

Lemma zip_with_map_same {A B C : Type} (f : A -> B -> C) (g : A -> B) (l : list A) :
  zip_with f l (map g l) = map (fun x => f x (g x)) l.
Proof. induction l as [| x l IH]; [reflexivity |]. cbn. f_equal. exact IH. Qed.

Lemma add_parsed_present (helper col : string) (df : DataFrame) :
  col ∈ df_columns df ->
  add_parsed helper col df
  = Ok {| df_columns :=
            if bool_decide (helper ∈ df_columns df) then df_columns df
            else df_columns df ++ [helper];
          df_rows := map (add_helper helper col) (df_rows df) |}.
Proof.
  intros Hcol. unfold add_parsed, df_get.
  rewrite bool_decide_eq_true_2 by exact Hcol.
  cbn [series_apply bind]. unfold df_set. f_equal. f_equal.
  rewrite map_map. apply zip_with_map_same.
Qed.

Lemma add_parsed_absent (helper col : string) (df : DataFrame) :
  col ∉ df_columns df -> add_parsed helper col df = Raise AttributeError.
Proof.
  intros Hcol. unfold add_parsed, df_get.
  rewrite bool_decide_eq_false_2 by exact Hcol. reflexivity.
Qed.

Lemma filter_minimum_rows (helper : string) (minimum : Z) (df : DataFrame) :
  filter_minimum helper minimum df
  = {| df_columns := df_columns df;
       df_rows := filter (fun r => meets_minimum minimum (int_at helper r)) (df_rows df) |}.
Proof.
  unfold filter_minimum, at_least. destruct df as [cols rows]. cbn [df_columns df_rows].
  destruct (0 <? minimum) eqn:E; f_equal.
  - apply list_filter_iff. intros r. unfold meets_minimum.
    apply Z.ltb_lt in E. split; [intros ? _; assumption | intros Hm; exact (Hm E)].
  - apply Z.ltb_ge in E. symmetry.
    induction rows as [| r rows IH]; [reflexivity |].
    rewrite filter_cons, decide_True by (unfold meets_minimum; lia).
    f_equal. exact IH.
Qed.

Lemma filter_maximum_rows (helper : string) (maximum : option Z) (df : DataFrame) :
  filter_maximum helper maximum df
  = {| df_columns := df_columns df;
       df_rows := filter (fun r => meets_maximum maximum (int_at helper r)) (df_rows df) |}.
Proof.
  unfold filter_maximum, at_most. destruct df as [cols rows]. cbn [df_columns df_rows].
  destruct maximum as [m |]; f_equal.
  symmetry. induction rows as [| r rows IH]; [reflexivity |].
  rewrite filter_cons, decide_True by exact I. f_equal. exact IH.
Qed.

Lemma elem_of_helper_columns (name : string) :
  name ∈ helper_columns <-> name = int_comments \/ name = int_likes \/ name = int_views.
Proof.
  unfold helper_columns. rewrite !elem_of_cons, elem_of_nil. tauto.
Qed.

Lemma row_ext (r1 r2 : Row) :
  row_index r1 = row_index r2 -> row_cells r1 = row_cells r2 -> r1 = r2.
Proof. destruct r1, r2. cbn. intros -> ->. reflexivity. Qed.

Ltac names_differ := first [ done | congruence ].

Ltac map_lookups :=
  repeat first
    [ rewrite lookup_insert_eq
    | rewrite lookup_delete_eq
    | rewrite lookup_insert_ne by names_differ
    | rewrite lookup_delete_ne by names_differ ].

Lemma with_helpers_cells (r : Row) :
  row_cells (with_helpers r)
  = <[int_views := CInt (metric col_views r)]>
      (<[int_likes := CInt (metric col_likes r)]>
         (<[int_comments := CInt (metric col_comments r)]> (row_cells r))).
Proof.
  unfold with_helpers, add_helper, set_cells, metric, row_get. cbn [row_cells row_index].
  map_lookups. reflexivity.
Qed.

Lemma with_helpers_int_at (r : Row) :
  int_at int_comments (with_helpers r) = metric col_comments r
  /\ int_at int_likes (with_helpers r) = metric col_likes r
  /\ int_at int_views (with_helpers r) = metric col_views r.
Proof.
  unfold int_at. rewrite with_helpers_cells. map_lookups. repeat split.
Qed.

Lemma drop_helpers_lookup (r : Row) (name : string) :
  row_cells (drop_helpers r) !! name
  = if bool_decide (name ∈ helper_columns) then None else row_cells r !! name.
Proof.
  unfold drop_helpers, set_cells. cbn [row_cells]. case_bool_decide as Hn.
  - apply elem_of_helper_columns in Hn. unfold helper_columns. cbn [foldr].
    destruct Hn as [-> | [-> | ->]]; map_lookups; reflexivity.
  - assert (Hne : name <> int_comments /\ name <> int_likes /\ name <> int_views).
    { repeat split; intros ->; apply Hn, elem_of_helper_columns; tauto. }
    destruct Hne as (Hc & Hl & Hv). unfold helper_columns. cbn [foldr].
    map_lookups. reflexivity.
Qed.

Lemma drop_with_helpers (r : Row) : drop_helpers (with_helpers r) = drop_helpers r.
Proof.
  apply row_ext; [reflexivity |]. apply map_eq. intros name.
  rewrite !drop_helpers_lookup. case_bool_decide as Hn; [reflexivity |].
  rewrite with_helpers_cells.
  rewrite !lookup_insert_ne
    by (intros <-; apply Hn, elem_of_helper_columns; tauto).
  reflexivity.
Qed.

Lemma metric_drop_helpers (col : string) (r : Row) :
  col ∉ helper_columns -> metric col (drop_helpers r) = metric col r.
Proof.
  intros Hc. unfold metric, row_get. rewrite drop_helpers_lookup.
  rewrite bool_decide_eq_false_2 by exact Hc. reflexivity.
Qed.

Lemma with_drop_helpers (r : Row) : with_helpers (drop_helpers r) = with_helpers r.
Proof.
  apply row_ext; [reflexivity |]. rewrite !with_helpers_cells.
  rewrite !metric_drop_helpers
    by (apply metric_names_not_helpers; rewrite !elem_of_cons; tauto).
  apply map_eq. intros name.
  destruct (decide (name = int_views)) as [-> | Hv]; [map_lookups; reflexivity |].
  destruct (decide (name = int_likes)) as [-> | Hl]; [map_lookups; reflexivity |].
  destruct (decide (name = int_comments)) as [-> | Hc]; [map_lookups; reflexivity |].
  map_lookups. rewrite drop_helpers_lookup.
  rewrite bool_decide_eq_false_2 by (rewrite elem_of_helper_columns; tauto).
  reflexivity.
Qed.

Lemma drop_helpers_id (r : Row) :
  (forall h, h ∈ helper_columns -> row_cells r !! h = None) -> drop_helpers r = r.
Proof.
  intros Hnone. apply row_ext; [reflexivity |]. apply map_eq. intros name.
  rewrite drop_helpers_lookup. case_bool_decide as Hn; [| reflexivity].
  symmetry. exact (Hnone name Hn).
Qed.

Lemma filter_out_appended (hs : list string) (h : string) (cols : list string) :
  h ∈ hs ->
  filter (fun c => c ∉ hs)
         (if bool_decide (h ∈ cols) then cols else (cols ++ [h])%list)
  = filter (fun c => c ∉ hs) cols.
Proof.
  intros Hh. case_bool_decide; [reflexivity |].
  rewrite filter_app, filter_cons, decide_False by (intros Hn; exact (Hn Hh)).
  rewrite filter_nil. apply app_nil_r.
Qed.

Lemma appended_keeps (h col : string) (cols : list string) :
  col ∈ cols -> col ∈ (if bool_decide (h ∈ cols) then cols else (cols ++ [h])%list).
Proof. intros Hc. case_bool_decide; [exact Hc | apply elem_of_app; left; exact Hc]. Qed.

(** What [apply_video_filters] returns on a table with the metric columns. *)
Lemma apply_video_filters_rows (cfg : Config) (df : DataFrame) :
  has_metric_columns df ->
  apply_video_filters cfg df
  = Ok {| df_columns := filter (fun c => c ∉ helper_columns) (df_columns df);
          df_rows := map drop_helpers
                         (filter (passes cfg) (map with_helpers (df_rows df))) |}.
Proof.
  intros (Hc & Hl & Hv). unfold apply_video_filters.
  rewrite (add_parsed_present int_comments col_comments df Hc). cbn [bind].
  rewrite add_parsed_present by (cbn [df_columns]; apply appended_keeps; exact Hl).
  cbn [bind df_columns df_rows].
  rewrite add_parsed_present
    by (cbn [df_columns]; apply appended_keeps, appended_keeps; exact Hv).
  cbn [bind df_columns df_rows].
  rewrite !filter_minimum_rows, !filter_maximum_rows. cbn [df_columns df_rows].
  unfold df_drop. cbn [df_columns df_rows]. f_equal. f_equal.
  - rewrite !filter_out_appended by (apply elem_of_helper_columns; tauto).
    reflexivity.
  - rewrite !map_map. rewrite !list_filter_filter.
    refine (f_equal (map drop_helpers) _).
    apply list_filter_iff. intros r. unfold passes. tauto.
Qed.

Lemma appended_absent (h col : string) (cols : list string) :
  col ∉ cols -> col <> h ->
  col ∉ (if bool_decide (h ∈ cols) then cols else (cols ++ [h])%list).
Proof.
  intros Hc Hne. case_bool_decide; [exact Hc |].
  rewrite elem_of_app, elem_of_cons, elem_of_nil. tauto.
Qed.

Lemma apply_video_filters_needs_columns (cfg : Config) (df out : DataFrame) :
  apply_video_filters cfg df = Ok out -> has_metric_columns df.
Proof.
  unfold apply_video_filters, has_metric_columns.
  destruct (decide (col_comments ∈ df_columns df)) as [Hc | Hc];
    [| rewrite (add_parsed_absent _ _ _ Hc); discriminate].
  rewrite (add_parsed_present int_comments col_comments df Hc). cbn [bind].
  destruct (decide (col_likes ∈ df_columns df)) as [Hl | Hl].
  2:{ rewrite add_parsed_absent
        by (cbn [df_columns]; apply appended_absent; [exact Hl | discriminate]).
      discriminate. }
  rewrite add_parsed_present by (cbn [df_columns]; apply appended_keeps; exact Hl).
  cbn [bind df_columns df_rows].
  destruct (decide (col_views ∈ df_columns df)) as [Hv | Hv]; [tauto |].
  rewrite add_parsed_absent
    by (cbn [df_columns]; apply appended_absent;
        [apply appended_absent; [exact Hv | discriminate] | discriminate]).
  discriminate.
Qed.

Lemma with_drop_filter (P : Row -> Prop) `{!forall r, Decision (P r)} (rows : list Row) :
  map with_helpers (map drop_helpers (filter P (map with_helpers rows)))
  = filter P (map with_helpers rows).
Proof.
  induction rows as [| r rows IH]; [reflexivity |].
  cbn [map]. rewrite filter_cons. destruct (decide (P (with_helpers r))).
  - cbn [map]. rewrite drop_with_helpers, with_drop_helpers. f_equal. exact IH.
  - exact IH.
Qed.

Lemma filter_twice {A : Type} (P : A -> Prop) `{!forall x, Decision (P x)} (l : list A) :
  filter P (filter P l) = filter P l.
Proof. rewrite list_filter_filter. apply list_filter_iff. tauto. Qed.

Lemma metric_columns_kept (df : DataFrame) :
  has_metric_columns df ->
  has_metric_columns
    {| df_columns := filter (fun c => c ∉ helper_columns) (df_columns df);
       df_rows := [] |}.
Proof.
  unfold has_metric_columns. cbn [df_columns]. intros (Hc & Hl & Hv).
  rewrite !list_elem_of_filter.
  repeat split; try assumption;
    apply metric_names_not_helpers; rewrite !elem_of_cons; tauto.
Qed.

(** C5: filtering the filtered table again, with the same six bounds,
    gives the filtered table (and a table the filter raises on, for want
    of a metric column, is raised on either way). *)
Theorem filter_idempotent (cfg : Config) (df : DataFrame) :
  bind (apply_video_filters cfg df) (apply_video_filters cfg)
  = apply_video_filters cfg df.
Proof.
  destruct (apply_video_filters cfg df) as [out | e] eqn:E; [| reflexivity].
  pose proof (apply_video_filters_needs_columns cfg df out E) as Hcols.
  rewrite (apply_video_filters_rows cfg df Hcols) in E. injection E as <-.
  cbn [bind]. rewrite apply_video_filters_rows by exact (metric_columns_kept df Hcols).
  cbn [df_columns df_rows]. f_equal. f_equal.
  - apply filter_twice.
  - rewrite with_drop_filter, filter_twice. reflexivity.
Qed.

(** C4: a minimum of 0 switches its test off, whatever the column holds;
    so in a table with the metric columns a row that meets the five
    other bounds is in the result when MIN_COMMENTS is 0, whatever its
    comment count (and likewise for MIN_LIKES and MIN_VIEWS); and with
    the three minima 0 and no maximum every row is. *)
Theorem zero_minimum_excludes_no_video (cfg : Config) (df : DataFrame) :
  has_metric_columns df ->
  (forall (helper : string) (any : DataFrame), filter_minimum helper 0 any = any)
  /\ exists out : DataFrame,
      apply_video_filters cfg df = Ok out
      /\ (forall r : Row,
            r ∈ df_rows df ->
            let c := metric col_comments r in
            let l := metric col_likes r in
            let v := metric col_views r in
            (MIN_COMMENTS cfg = 0 ->
             meets_maximum (MAX_COMMENTS cfg) c ->
             meets_minimum (MIN_LIKES cfg) l -> meets_maximum (MAX_LIKES cfg) l ->
             meets_minimum (MIN_VIEWS cfg) v -> meets_maximum (MAX_VIEWS cfg) v ->
             drop_helpers r ∈ df_rows out)
            /\ (MIN_LIKES cfg = 0 ->
                meets_maximum (MAX_LIKES cfg) l ->
                meets_minimum (MIN_COMMENTS cfg) c -> meets_maximum (MAX_COMMENTS cfg) c ->
                meets_minimum (MIN_VIEWS cfg) v -> meets_maximum (MAX_VIEWS cfg) v ->
                drop_helpers r ∈ df_rows out)
            /\ (MIN_VIEWS cfg = 0 ->
                meets_maximum (MAX_VIEWS cfg) v ->
                meets_minimum (MIN_COMMENTS cfg) c -> meets_maximum (MAX_COMMENTS cfg) c ->
                meets_minimum (MIN_LIKES cfg) l -> meets_maximum (MAX_LIKES cfg) l ->
                drop_helpers r ∈ df_rows out))
      /\ (MIN_COMMENTS cfg = 0 -> MIN_LIKES cfg = 0 -> MIN_VIEWS cfg = 0 ->
          MAX_COMMENTS cfg = None -> MAX_LIKES cfg = None -> MAX_VIEWS cfg = None ->
          df_rows out = map drop_helpers (df_rows df)).
Proof.
  intros Hcols. split; [reflexivity |].
  eexists. split; [exact (apply_video_filters_rows cfg df Hcols) |].
  cbn [df_rows].
  assert (Hkeep : forall r, r ∈ df_rows df -> passes cfg (with_helpers r) ->
                  drop_helpers r
                  ∈ map drop_helpers (filter (passes cfg) (map with_helpers (df_rows df)))).
  { intros r Hr Hp. rewrite <- (drop_with_helpers r).
    apply (list_elem_of_fmap_2 drop_helpers). apply list_elem_of_filter.
    split; [exact Hp |]. apply (list_elem_of_fmap_2 with_helpers). exact Hr. }
  split.
  - intros r Hr. cbv zeta.
    repeat split; intros Hzero; intros; apply (Hkeep r Hr); unfold passes;
      destruct (with_helpers_int_at r) as (-> & -> & ->);
      rewrite Hzero; unfold meets_minimum at 1 2 3; repeat split;
      first [assumption | lia].
  - intros Hc Hl Hv HC HL HV.
    assert (Hall : filter (passes cfg) (map with_helpers (df_rows df))
                   = map with_helpers (df_rows df)).
    { clear Hkeep Hcols. induction (df_rows df) as [| r rows IH]; [reflexivity |].
      cbn [map]. rewrite filter_cons, decide_True; [f_equal; exact IH |].
      unfold passes, meets_minimum. rewrite Hc, Hl, Hv, HC, HL, HV.
      cbn [meets_maximum]. repeat split; lia. }
    rewrite Hall, map_map. apply map_ext. exact drop_with_helpers.
Qed.

(** C10, as amended: on a table with the metric columns the filter
    returns rows of the input, in the input's order and none added, each
    with its index and with every cell but those under a helper column's
    name, which are dropped like the three names from the column list;
    so a table that has no column so named gets back its own rows and
    columns unchanged. *)
Theorem filter_returns_input_rows_in_order (cfg : Config) (df : DataFrame) :
  has_metric_columns df ->
  exists out : DataFrame,
    apply_video_filters cfg df = Ok out
    /\ (df_rows out `sublist_of` map drop_helpers (df_rows df))
    /\ df_columns out = filter (fun c => c ∉ helper_columns) (df_columns df)
    /\ (forall r' : Row,
          r' ∈ df_rows out ->
          exists r : Row,
            r ∈ df_rows df
            /\ row_index r' = row_index r
            /\ (forall name, name ∉ helper_columns ->
                             row_cells r' !! name = row_cells r !! name)
            /\ (forall name, name ∈ helper_columns -> row_cells r' !! name = None))
    /\ ((forall h, h ∈ helper_columns ->
                   (h ∉ df_columns df)
                   /\ (forall r, r ∈ df_rows df -> row_cells r !! h = None)) ->
        df_columns out = df_columns df
        /\ (df_rows out `sublist_of` df_rows df)).
Proof.
  intros Hcols. eexists.
  split; [exact (apply_video_filters_rows cfg df Hcols) |].
  cbn [df_rows df_columns].
  assert (Hsub : map drop_helpers (filter (passes cfg) (map with_helpers (df_rows df)))
                 `sublist_of` map drop_helpers (df_rows df)).
  { replace (map drop_helpers (df_rows df))
      with (map drop_helpers (map with_helpers (df_rows df)))
      by (rewrite map_map; apply map_ext; exact drop_with_helpers).
    apply (fmap_sublist drop_helpers). apply sublist_filter. }
  split; [exact Hsub |]. split; [reflexivity |]. split.
  - intros r' Hr'. pose proof (elem_of_sublist _ _ _ Hr' Hsub) as Hin.
    apply (list_elem_of_fmap_1 drop_helpers) in Hin. destruct Hin as (r & -> & Hr).
    exists r. split; [exact Hr |]. split; [reflexivity |].
    split; intros name Hn; rewrite drop_helpers_lookup.
    + rewrite bool_decide_eq_false_2 by exact Hn. reflexivity.
    + rewrite bool_decide_eq_true_2 by exact Hn. reflexivity.
  - intros Hfree. split.
    + induction (df_columns df) as [| c cols IH]; [reflexivity |].
      rewrite filter_cons, decide_True.
      * f_equal. apply IH. intros h Hh. destruct (Hfree h Hh) as [Hno Hrows].
        split; [| exact Hrows]. intros Hin. apply Hno. right. exact Hin.
      * intros Hc. destruct (Hfree c Hc) as [Hno _]. apply Hno. left.
    + replace (df_rows df) with (map drop_helpers (df_rows df)) at 2; [exact Hsub |].
      rewrite <- (map_id (df_rows df)) at 2. apply map_ext_in.
      intros r Hr. apply drop_helpers_id. intros h Hh.
      destruct (Hfree h Hh) as [_ Hrows]. apply Hrows, list_elem_of_In. exact Hr.
Qed.

End VideoFilter.

(** With a minimum of 500 views as the only bound, of three videos with
    100, 500 and 900 views the last two remain. *)
Example minimum_views_500 :
  let bounds :=
    {| DEFAULT_TIMEOUT := 10; PAGE_LOAD_WAIT := 3; MAX_SCROLL_ATTEMPTS := 5000;
       SCROLL_DELAY := 2; INITIAL_SCROLL_ATTEMPTS := 5; MAX_NO_NEW_COMMENTS := 1;
       VIDEO_DELAY := 2; MIN_COMMENTS := 0; MIN_LIKES := 0; MIN_VIEWS := 500;
       MAX_COMMENTS := None; MAX_LIKES := None; MAX_VIEWS := None |} in
  let videos :=
    Sim.table [Sim.table_row 0 "u1" "1" "1" "100";
               Sim.table_row 1 "u2" "1" "1" "500";
               Sim.table_row 2 "u3" "1" "1" "900"] in
  match apply_video_filters bounds videos with
  | Ok out => map row_index (df_rows out) = [1; 2]
  | Raise _ => False
  end.
Proof. vm_compute. reflexivity. Qed.

Lemma three_rows_have_metric_columns : has_metric_columns (Sim.table Sim.three_rows).
Proof.
  unfold has_metric_columns, Sim.table. cbn [df_columns].
  rewrite !elem_of_cons. tauto.
Defined.

(** C4 at the shipped bounds (MIN_LIKES = 0): the first of three rows,
    with 1,234 comments and 1000 views, is kept. *)
Lemma zero_minimum_excludes_no_video_witness :
  exists out : DataFrame,
    apply_video_filters config (Sim.table Sim.three_rows) = Ok out
    /\ drop_helpers Sim.row1 ∈ df_rows out.
Proof.
  destruct (zero_minimum_excludes_no_video config (Sim.table Sim.three_rows)
              three_rows_have_metric_columns) as (_ & out & Hout & Hrows & _).
  exists out. split; [exact Hout |].
  assert (Hin : Sim.row1 ∈ df_rows (Sim.table Sim.three_rows))
    by apply list_elem_of_here.
  destruct (Hrows Sim.row1 Hin) as (_ & Hlikes & _).
  apply Hlikes; [reflexivity | ..];
    match goal with
    | |- ?P => apply (@bool_decide_unpack P _); vm_compute; exact I
    end.
Defined.

(** C10, as first stated, fails: a table that has a column named like
    the first helper column loses it; the surviving row had a cell
    there and has none afterwards. *)
Lemma filter_drops_column_named_like_helper :
  exists out : DataFrame,
    apply_video_filters Sim.patient Sim.clashing_table = Ok out
    /\ map (row_get int_comments) (df_rows Sim.clashing_table) = [CStr "mine"]
    /\ map (fun r => row_cells r !! int_comments) (df_rows out) = [None]
    /\ df_columns out = ["URL"; col_comments; col_likes; col_views].
Proof.
  eexists. split; [vm_compute; reflexivity |]. vm_compute. repeat split.
Qed.

(** The amended statement on the three rows, at the shipped bounds. *)
Lemma filter_returns_input_rows_in_order_witness :
  exists out : DataFrame,
    apply_video_filters config (Sim.table Sim.three_rows) = Ok out
    /\ df_columns out = df_columns (Sim.table Sim.three_rows)
    /\ (df_rows out `sublist_of` Sim.three_rows).
Proof.
  destruct (filter_returns_input_rows_in_order config (Sim.table Sim.three_rows)
              three_rows_have_metric_columns) as (out & Hout & _ & _ & _ & Hfree).
  exists out. split; [exact Hout |]. apply Hfree.
  intros h Hh. apply elem_of_helper_columns in Hh. split.
  - cbn [Sim.table df_columns]. rewrite !elem_of_cons, elem_of_nil.
    destruct Hh as [-> | [-> | ->]]; intros [E | [E | [E | [E | []]]]]; discriminate E.
  - intros r Hr. cbn [Sim.table df_rows] in Hr. unfold Sim.three_rows in Hr.
    rewrite !elem_of_cons, elem_of_nil in Hr.
    destruct Hr as [-> | [-> | [-> | []]]];
      destruct Hh as [-> | [-> | ->]]; vm_compute; reflexivity.
Defined.

(** ** Adaptive scroll controller *)

Lemma last_any_default {A : Type} (l : list A) :
  forall (x d d' : A), List.last (x :: l) d = List.last (x :: l) d'.
Proof.
  induction l as [| y l IH]; intros x d d'; [reflexivity |].
  change (List.last (y :: l) d = List.last (y :: l) d'). apply IH.
Qed.

Lemma last_is_member {A : Type} (l : list A) :
  forall (x d : A), List.In (List.last (x :: l) d) (x :: l).
Proof.
  induction l as [| y l IH]; intros x d; [left; reflexivity |].
  right. change (List.In (List.last (y :: l) d) (y :: l)). apply IH.
Qed.

Section Controller.

Context {W : Type} `{Browser W}.
Variable cfg : Config.

(** One turn of the loop, read off its result. *)
Lemma scroll_iteration_spec (st st' : ScrollState) (w w' : W) (stop : bool) :
  scroll_iteration cfg st w = (stop, st', w') ->
  let current := (advance_and_count cfg st w).1 in
  scroll_attempts st' = scroll_attempts st + 1
  /\ (last_comment_count st < current ->
      last_comment_count st' = current /\ no_new_comments_count st' = 0 /\ stop = false)
  /\ (current <= last_comment_count st ->
      last_comment_count st' = last_comment_count st /\ no_new_comments_count st' = no_new_comments_count st + 1).
Proof.
  unfold scroll_iteration, _has_new_comments.
  destruct (advance_and_count cfg st w) as [current w1]. cbn [fst].
  destruct (last_comment_count st <? current) eqn:E.
  - apply Z.ltb_lt in E. intros [= <- <- <-]. cbn. repeat split; lia.
  - apply Z.ltb_ge in E.
    destruct (_should_stop_scrolling cfg _ _ _) as [s w2].
    intros [= <- <- <-]. cbn. repeat split; lia.
Qed.

Lemma scroll_iteration_monotone (st st' : ScrollState) (w w' : W) (stop : bool) :
  scroll_iteration cfg st w = (stop, st', w') -> last_comment_count st <= last_comment_count st'.
Proof.
  intros E. destruct (scroll_iteration_spec _ _ _ _ _ E) as (_ & Hup & Hsame).
  destruct (Z.lt_ge_cases (last_comment_count st) (advance_and_count cfg st w).1) as [Hlt | Hge].
  - destruct (Hup Hlt) as (-> & _). lia.
  - destruct (Hsame Hge) as (-> & _). lia.
Qed.

Lemma scroll_history_sorted (fuel : nat) :
  forall (st : ScrollState) (w : W),
    Forall (count_le st) (scroll_history cfg fuel st w)
    /\ StronglySorted count_le (scroll_history cfg fuel st w).
Proof.
  induction fuel as [| fuel IH]; intros st w; cbn [scroll_history];
    [split; constructor |].
  destruct (scroll_attempts st <? MAX_SCROLL_ATTEMPTS cfg); [| split; constructor].
  destruct (scroll_iteration cfg st w) as [[stop st'] w'] eqn:E.
  pose proof (scroll_iteration_monotone _ _ _ _ _ E) as Hle.
  destruct stop.
  - split; repeat constructor. exact Hle.
  - destruct (IH st' w') as [Hall Hsorted]. split.
    + constructor; [exact Hle |].
      eapply Forall_impl; [exact Hall |]. unfold count_le. intros s Hs. lia.
    + constructor; assumption.
Qed.

Lemma scroll_loop_is_last_of_history (fuel : nat) :
  forall (st : ScrollState) (w : W),
    (scroll_loop cfg fuel st w).1 = List.last (scroll_history cfg fuel st w) st.
Proof.
  induction fuel as [| fuel IH]; intros st w; cbn [scroll_loop scroll_history];
    [reflexivity |].
  destruct (scroll_attempts st <? MAX_SCROLL_ATTEMPTS cfg); [| reflexivity].
  destruct (scroll_iteration cfg st w) as [[stop st'] w'].
  destruct stop; [reflexivity |].
  rewrite IH. destruct (scroll_history cfg fuel st' w') as [| s h] eqn:Eh; [reflexivity |].
  change (List.last (s :: h) st' = List.last (s :: h) st). apply last_any_default.
Qed.

Lemma scroll_loop_attempts (fuel : nat) :
  forall (st : ScrollState) (w : W),
    scroll_attempts (scroll_loop cfg fuel st w).1
    = scroll_attempts st + Z.of_nat (length (scroll_history cfg fuel st w))
    /\ (scroll_attempts st <= MAX_SCROLL_ATTEMPTS cfg ->
        scroll_attempts (scroll_loop cfg fuel st w).1 <= MAX_SCROLL_ATTEMPTS cfg).
Proof.
  induction fuel as [| fuel IH]; intros st w; cbn [scroll_loop scroll_history];
    [cbn; split; lia |].
  destruct (scroll_attempts st <? MAX_SCROLL_ATTEMPTS cfg) eqn:G; [| cbn; split; lia].
  apply Z.ltb_lt in G.
  destruct (scroll_iteration cfg st w) as [[stop st'] w'] eqn:E.
  destruct (scroll_iteration_spec _ _ _ _ _ E) as (Hatt & _).
  destruct stop; [cbn; split; lia |].
  destruct (IH st' w') as [Hlen Hmax]. cbn [length]. split; [lia |].
  intros _. apply Hmax. lia.
Qed.

(** Fuel beyond the turns the guard allows changes nothing. *)
Lemma scroll_loop_fuel (fuel : nat) :
  forall (extra : nat) (st : ScrollState) (w : W),
    MAX_SCROLL_ATTEMPTS cfg - scroll_attempts st <= Z.of_nat fuel ->
    scroll_loop cfg (fuel + extra) st w = scroll_loop cfg fuel st w.
Proof.
  induction fuel as [| fuel IH]; intros extra st w Hfuel.
  - cbn [Nat.add scroll_loop]. destruct extra as [| extra]; [reflexivity |].
    cbn [scroll_loop].
    rewrite (proj2 (Z.ltb_ge _ _)) by lia. reflexivity.
  - cbn [Nat.add scroll_loop].
    destruct (scroll_attempts st <? MAX_SCROLL_ATTEMPTS cfg) eqn:G; [| reflexivity].
    destruct (scroll_iteration cfg st w) as [[stop st'] w'] eqn:E.
    destruct (scroll_iteration_spec _ _ _ _ _ E) as (Hatt & _).
    destruct stop; [reflexivity |]. apply IH. lia.
Qed.

Lemma scroll_loop_monotone (fuel : nat) (st : ScrollState) (w : W) :
  last_comment_count st <= last_comment_count (scroll_loop cfg fuel st w).1.
Proof.
  rewrite scroll_loop_is_last_of_history.
  destruct (scroll_history_sorted fuel st w) as [Hall _].
  destruct (scroll_history cfg fuel st w) as [| s h] eqn:Eh; [cbn; lia |].
  pose proof (last_is_member h s st) as Hin.
  rewrite List.Forall_forall in Hall. exact (Hall _ Hin).
Qed.

(** C6: in every turn of the loop the observed count does not go down;
    it changes only when the count just read is strictly larger, and
    then it becomes that count and the stall counter becomes 0;
    otherwise it stays and the stall counter goes up by 1.  So the
    counts of the states after each turn, from the first state on, are
    in non-decreasing order, their last state is what the loop ends
    with, and the count returned is at least the count found at the
    start. *)
Theorem observed_count_never_decreases :
  (forall (st st' : ScrollState) (w w' : W) (stop : bool),
      scroll_iteration cfg st w = (stop, st', w') ->
      let current := (advance_and_count cfg st w).1 in
      last_comment_count st <= last_comment_count st'
      /\ (last_comment_count st < current ->
          last_comment_count st' = current /\ no_new_comments_count st' = 0)
      /\ (current <= last_comment_count st ->
          last_comment_count st' = last_comment_count st
          /\ no_new_comments_count st' = no_new_comments_count st + 1)
      /\ (last_comment_count st' <> last_comment_count st ->
          last_comment_count st < current))
  /\ (forall (fuel : nat) (st : ScrollState) (w : W),
        StronglySorted count_le (st :: scroll_history cfg fuel st w))
  /\ (forall (fuel : nat) (st : ScrollState) (w : W),
        (scroll_loop cfg fuel st w).1 = List.last (scroll_history cfg fuel st w) st)
  /\ (forall w : W,
        len (_get_current_comments w) <= (_perform_smart_scroll cfg w).1).
Proof.
  split; [| split; [| split]].
  - intros st st' w w' stop E. cbv zeta.
    destruct (scroll_iteration_spec _ _ _ _ _ E) as (_ & Hup & Hsame).
    split; [exact (scroll_iteration_monotone _ _ _ _ _ E) |].
    split; [intros Hlt; destruct (Hup Hlt) as (? & ? & _); split; assumption |].
    split; [exact Hsame |].
    intros Hne.
    destruct (Z.lt_ge_cases (last_comment_count st) (advance_and_count cfg st w).1)
      as [Hlt | Hge]; [exact Hlt |].
    destruct (Hsame Hge) as (Heq & _). contradiction.
  - intros fuel st w. destruct (scroll_history_sorted fuel st w) as [Hall Hsorted].
    constructor; assumption.
  - intros fuel st w. apply scroll_loop_is_last_of_history.
  - intros w. unfold _perform_smart_scroll.
    pose proof (scroll_loop_monotone (Z.to_nat (MAX_SCROLL_ATTEMPTS cfg))
                  (initial_scroll_state w) w) as Hm.
    destruct (scroll_loop cfg _ _ w) as [st w']. exact Hm.
Qed.

(** C7: with patience P >= 1 and at most B >= P turns, the loop of
    [_perform_smart_scroll] comes to an end by itself (more fuel than B
    changes nothing), after as many turns as its counter says and at
    most B of them; the count it returns is not negative, and
    [smart_infinite_scroll] reports success exactly when the comment
    region was found and that count is positive. *)
Theorem controller_stops_within_bound (w : W) :
  1 <= MAX_NO_NEW_COMMENTS cfg ->
  MAX_NO_NEW_COMMENTS cfg <= MAX_SCROLL_ATTEMPTS cfg ->
  let B := MAX_SCROLL_ATTEMPTS cfg in
  let run := scroll_loop cfg (Z.to_nat B) (initial_scroll_state w) w in
  _perform_smart_scroll cfg w = (last_comment_count run.1, run.2)
  /\ (forall extra : nat,
        scroll_loop cfg (Z.to_nat B + extra) (initial_scroll_state w) w = run)
  /\ scroll_attempts run.1
     = Z.of_nat (length (scroll_history cfg (Z.to_nat B) (initial_scroll_state w) w))
  /\ 0 <= scroll_attempts run.1 <= B
  /\ 0 <= last_comment_count run.1
  /\ (forall w0 : W,
        (smart_infinite_scroll cfg w0).1 = true <->
        (_scroll_to_comments_section cfg w0).1 = true
        /\ 0 < (_perform_smart_scroll cfg (_scroll_to_comments_section cfg w0).2).1).
Proof.
  intros HP HB B run.
  assert (HB0 : 0 <= B) by (unfold B; lia).
  destruct (scroll_loop_attempts (Z.to_nat B) (initial_scroll_state w) w)
    as [Hlen Hmax].
  fold run in Hlen, Hmax. cbn [initial_scroll_state scroll_attempts] in Hlen, Hmax.
  split; [unfold _perform_smart_scroll; fold B; fold run; destruct run; reflexivity |].
  split; [intros extra; apply scroll_loop_fuel;
          cbn [initial_scroll_state scroll_attempts]; fold B; lia |].
  split; [lia |]. split; [fold B in Hmax; lia |].
  split.
  - pose proof (scroll_loop_monotone (Z.to_nat B) (initial_scroll_state w) w) as Hm.
    fold run in Hm. cbn [initial_scroll_state last_comment_count] in Hm.
    unfold len in Hm. lia.
  - intros w0. unfold smart_infinite_scroll.
    destruct (_scroll_to_comments_section cfg w0) as [found w1]. cbn [fst snd].
    destruct found; cbn [negb].
    + destruct (_perform_smart_scroll cfg w1) as [n w2]. cbn [fst].
      rewrite Z.ltb_lt. tauto.
    + cbn [fst]. split; [discriminate | intros [? _]; discriminate].
Qed.

(** C8, as amended: when the stall count has reached 15 but not the
    patience limit, the observed count is below 100, and the probe
    finds more than fifteen related videos, no comment region and no
    continuation item, [_should_stop_scrolling] says stop and leaves the
    page as it is: no last-resort attempt is made; and a turn of the
    loop that stalls into this ends the loop, with the count observed
    so far. *)
Theorem related_section_stops_at_once (n observed : Z) (w : W) :
  n < MAX_NO_NEW_COMMENTS cfg ->
  15 <= n ->
  observed < 100 ->
  (15 < count_elements "ytd-compact-video-renderer" w)%nat ->
  count_elements "#comments" w = 0%nat ->
  count_elements "ytd-continuation-item-renderer" w = 0%nat ->
  _should_stop_scrolling cfg n observed w = (true, w)
  /\ (forall (st : ScrollState) (w0 : W) (fuel : nat),
        scroll_attempts st < MAX_SCROLL_ATTEMPTS cfg ->
        no_new_comments_count st + 1 = n ->
        last_comment_count st = observed ->
        (advance_and_count cfg st w0).1 <= observed ->
        (if (MAX_NO_NEW_COMMENTS cfg / 2 <=? n) && (observed <? 50)
         then _extra_patient_scroll (advance_and_count cfg st w0).2
         else (advance_and_count cfg st w0).2) = w ->
        scroll_loop cfg (S fuel) st w0
        = ({| last_comment_count := observed;
              scroll_attempts := scroll_attempts st + 1;
              no_new_comments_count := n |}, w)).
Proof.
  intros HP Hn Hobs Hrel Hreg Hcont.
  assert (Hstop : _should_stop_scrolling cfg n observed w = (true, w)).
  { unfold _should_stop_scrolling, _detect_related_videos_section.
    rewrite (proj2 (Z.leb_gt _ _)) by lia.
    rewrite (proj2 (Z.leb_le _ _)) by lia.
    rewrite (proj2 (Z.ltb_lt _ _)) by lia. cbn [andb].
    rewrite (proj2 (Nat.ltb_lt _ _)) by exact Hrel.
    rewrite Hreg, Hcont. reflexivity. }
  split; [exact Hstop |].
  intros st w0 fuel Hatt Hstall Hlast Hcount Hw.
  cbn [scroll_loop]. rewrite (proj2 (Z.ltb_lt _ _)) by exact Hatt.
  unfold scroll_iteration, _has_new_comments.
  destruct (advance_and_count cfg st w0) as [current w1]. cbn [fst snd] in Hcount, Hw.
  rewrite Hlast, Hstall. rewrite (proj2 (Z.ltb_ge _ _)) by lia.
  rewrite Hw, Hstop. reflexivity.
Qed.

End Controller.

(** C8, as first stated, fails: on a page with three comments loaded,
    twenty related videos, no comment region and no continuation item,
    with patience 20, the loop ends at its fifteenth stall, below the
    patience limit, having advanced once per turn and never waited the
    four seconds of a last-resort attempt. *)
Lemma related_section_skips_final_attempts :
  let run :=
    scroll_loop Sim.patient 50 (initial_scroll_state Sim.trailing_page)
      Sim.trailing_page in
  no_new_comments_count run.1 = 15
  /\ scroll_attempts run.1 = 15
  /\ last_comment_count run.1 = 3
  /\ no_new_comments_count run.1 < MAX_NO_NEW_COMMENTS Sim.patient
  /\ _detect_related_videos_section run.2 = true
  /\ length (List.filter Sim.is_advance (Sim.actions run.2)) = 15%nat
  /\ List.filter (Sim.is_sleep 4) (Sim.actions run.2) = [].
Proof. vm_compute. repeat split. Qed.

(** The amended statement on that page, at the fifteenth stall. *)
Lemma related_section_stops_at_once_witness :
  _should_stop_scrolling Sim.patient 15 3 Sim.trailing_page = (true, Sim.trailing_page).
Proof.
  apply (related_section_stops_at_once Sim.patient 15 3 Sim.trailing_page).
  - reflexivity.
  - discriminate.
  - reflexivity.
  - vm_compute. lia.
  - reflexivity.
  - reflexivity.
Defined.

(** The bound at patience 20 and 50 turns, on that page. *)
Lemma controller_stops_within_bound_witness :
  0 <= scroll_attempts
         (scroll_loop Sim.patient (Z.to_nat (MAX_SCROLL_ATTEMPTS Sim.patient))
            (initial_scroll_state Sim.trailing_page) Sim.trailing_page).1
    <= MAX_SCROLL_ATTEMPTS Sim.patient.
Proof.
  assert (HP : 1 <= MAX_NO_NEW_COMMENTS Sim.patient) by (vm_compute; discriminate).
  assert (HB : MAX_NO_NEW_COMMENTS Sim.patient <= MAX_SCROLL_ATTEMPTS Sim.patient)
    by (vm_compute; discriminate).
  pose proof (controller_stops_within_bound Sim.patient Sim.trailing_page HP HB)
    as (_ & _ & _ & Hbound & _).
  exact Hbound.
Defined.

(** ** Run orchestrator *)

Section Orchestrator.

Context {W : Type} `{Browser W}.
Variable cfg : Config.

Local Open Scope list_scope.

(** What [scrape_video_comments] does to the scraper's lists. *)
Lemma scrape_video_comments_effect (url : cell) (vd : gmap string cell) (self : Scraper) :
  let available := (check_video_availability cfg url (driver self)).1 in
  let result := scrape_video_comments cfg url vd self in
  all_comments result.2 = all_comments self
  /\ processed_videos result.2 = processed_videos self
  /\ (available = true -> failed_videos result.2 = failed_videos self)
  /\ (available = false ->
      result.1 = []
      /\ exists t, failed_videos result.2 = failed_videos self ++ [unavailable url t])
  /\ Forall (fun c => video_url (meta c) = default url (vd !! "URL")) result.1.
Proof.
  cbv zeta. unfold scrape_video_comments.
  destruct (check_video_availability cfg url (driver self)) as [available w1].
  cbn [fst]. destruct available; cbn [negb].
  - destruct (smart_infinite_scroll cfg w1) as [loaded w2].
    destruct loaded; cbn [negb].
    + unfold _process_comment_elements.
      pose proof (process_from_urls (_get_current_comments w2) vd url 0 w2) as Hurls.
      destruct (process_from 0 (_get_current_comments w2) vd url w2) as [out w3].
      cbn [fst snd] in *.
      split; [reflexivity |]. split; [reflexivity |]. split; [reflexivity |].
      split; [discriminate | exact Hurls].
    + cbn [fst snd with_driver all_comments processed_videos failed_videos].
      split; [reflexivity |]. split; [reflexivity |]. split; [reflexivity |].
      split; [discriminate | constructor].
  - destruct (now w1) as [t w2].
    cbn [fst snd all_comments processed_videos failed_videos].
    split; [reflexivity |]. split; [reflexivity |]. split; [discriminate |].
    split; [| constructor].
    intros _. split; [reflexivity |]. exists t. reflexivity.
Qed.

(** What one turn of the loop over the rows does to them. *)
Lemma process_row_effect (row : Row) (url : cell) (self : Scraper) :
  row_cells row !! "URL" = Some url ->
  let result := scrape_video_comments cfg url (row_cells row) self in
  all_comments (process_row cfg row self) = all_comments self ++ result.1
  /\ failed_videos (process_row cfg row self) = failed_videos result.2
  /\ (result.1 = [] ->
      processed_videos (process_row cfg row self) = processed_videos self).
Proof.
  intros Hurl. cbv zeta. unfold process_row. rewrite Hurl.
  destruct (scrape_video_comments_effect url (row_cells row) self)
    as (Hall & Hproc & _).
  destruct (scrape_video_comments cfg url (row_cells row) self) as [comments s1].
  cbn [fst snd] in *.
  destruct comments as [| c comments];
    cbn [with_driver all_comments processed_videos failed_videos driver].
  - rewrite app_nil_r. split; [exact Hall |]. split; [reflexivity |].
    intros _. exact Hproc.
  - rewrite Hall. split; [reflexivity |]. split; [reflexivity | discriminate].
Qed.

Lemma process_rows_app (before after : list Row) (self : Scraper) :
  process_rows cfg (before ++ after) self
  = process_rows cfg after (process_rows cfg before self).
Proof. unfold process_rows. apply fold_left_app. Qed.

(** C9: a video whose availability check fails yields no comment; the
    turn of the loop that meets it leaves the accumulated comments and
    the processed list as they were and adds one entry, with the
    video's URL and the reason, to the failed list; the loop goes on
    with the rows after it.  So with three videos of which the first
    and third are available and the second is not, the comments at the
    end are those scraped from the first and the third, each bearing its
    video's URL, and the failed list has gained the one entry for the
    second. *)
Theorem unavailable_video_is_recorded_and_skipped
    (row : Row) (url : cell) (self : Scraper) :
  row_cells row !! "URL" = Some url ->
  (check_video_availability cfg url (driver self)).1 = false ->
  let self' := process_row cfg row self in
  (scrape_video_comments cfg url (row_cells row) self).1 = []
  /\ all_comments self' = all_comments self
  /\ processed_videos self' = processed_videos self
  /\ (exists t, failed_videos self' = failed_videos self ++ [unavailable url t])
  /\ (forall (before after : list Row) (s0 : Scraper),
        process_rows cfg before s0 = self ->
        process_rows cfg (before ++ row :: after) s0 = process_rows cfg after self')
  /\ (forall (r1 r3 : Row) (u1 u3 : cell) (s0 : Scraper),
        row_cells r1 !! "URL" = Some u1 ->
        row_cells r3 !! "URL" = Some u3 ->
        process_row cfg r1 s0 = self ->
        (check_video_availability cfg u1 (driver s0)).1 = true ->
        (check_video_availability cfg u3 (driver self')).1 = true ->
        let c1 := (scrape_video_comments cfg u1 (row_cells r1) s0).1 in
        let c3 := (scrape_video_comments cfg u3 (row_cells r3) self').1 in
        let final := process_rows cfg [r1; row; r3] s0 in
        all_comments final = all_comments s0 ++ c1 ++ c3
        /\ Forall (fun c => video_url (meta c) = u1) c1
        /\ Forall (fun c => video_url (meta c) = u3) c3
        /\ exists t, failed_videos final = failed_videos s0 ++ [unavailable url t]).
Proof.
  intros Hurl Hgone self'.
  destruct (scrape_video_comments_effect url (row_cells row) self)
    as (_ & _ & _ & Hfail & _).
  destruct (Hfail Hgone) as (Hnone & t & Ht).
  destruct (process_row_effect row url self Hurl) as (Hall & Hfailed & Hproc).
  fold self' in Hall, Hfailed, Hproc. rewrite Hnone, app_nil_r in Hall.
  assert (Hentry : failed_videos self' = failed_videos self ++ [unavailable url t])
    by (rewrite Hfailed; exact Ht).
  split; [exact Hnone |]. split; [exact Hall |]. split; [exact (Hproc Hnone) |].
  split; [exists t; exact Hentry |]. split.
  - intros before after s0 <-. rewrite process_rows_app. reflexivity.
  - intros r1 r3 u1 u3 s0 Hu1 Hu3 Hs1 Hok1 Hok3. cbv zeta.
    destruct (scrape_video_comments_effect u1 (row_cells r1) s0)
      as (_ & _ & Hkeep1 & _ & Hurls1).
    destruct (scrape_video_comments_effect u3 (row_cells r3) self')
      as (_ & _ & Hkeep3 & _ & Hurls3).
    destruct (process_row_effect r1 u1 s0 Hu1) as (Hall1 & Hfailed1 & _).
    destruct (process_row_effect r3 u3 self' Hu3) as (Hall3 & Hfailed3 & _).
    rewrite Hs1 in Hall1, Hfailed1.
    change (process_rows cfg [r1; row; r3] s0)
      with (process_row cfg r3 (process_row cfg row (process_row cfg r1 s0))).
    rewrite Hs1. fold self'.
    rewrite Hu1 in Hurls1. rewrite Hu3 in Hurls3. cbn [default] in Hurls1, Hurls3.
    split; [rewrite Hall3, Hall, Hall1, <- app_assoc; reflexivity |].
    split; [exact Hurls1 |]. split; [exact Hurls3 |].
    exists t. rewrite Hfailed3, (Hkeep3 Hok3), Hentry, Hfailed1, (Hkeep1 Hok1).
    reflexivity.
Qed.

End Orchestrator.

(** C9 on three videos, the second one removed, at the shipped
    configuration: the comments at the end are the two of the first
    video and the one of the third, and the failed list names the
    second. *)
Lemma unavailable_video_is_recorded_and_skipped_witness :
  let final := process_rows config Sim.three_rows (Sim.fresh Sim.three_videos) in
  map (fun c => (comment_text (data c), video_url (meta c))) (all_comments final)
  = [("a", CStr "u1"); ("b", CStr "u1"); ("c", CStr "u3")]
  /\ map failed_url (failed_videos final) = [CStr "u2"].
Proof.
  cbv zeta.
  assert (Hgone : (check_video_availability config (CStr "u2")
                     (driver (process_row config Sim.row1
                                (Sim.fresh Sim.three_videos)))).1 = false)
    by (vm_compute; reflexivity).
  destruct (unavailable_video_is_recorded_and_skipped config Sim.row2 (CStr "u2")
              (process_row config Sim.row1 (Sim.fresh Sim.three_videos))
              eq_refl Hgone) as (_ & _ & _ & _ & _ & Hthree).
  destruct (Hthree Sim.row1 Sim.row3 (CStr "u1") (CStr "u3")
              (Sim.fresh Sim.three_videos) eq_refl eq_refl eq_refl)
    as (Hall & _ & _ & t & Hfailed); try (vm_compute; reflexivity).
  unfold Sim.three_rows. rewrite Hall, Hfailed. split; vm_compute; reflexivity.
Defined.

(** * Further properties *)

(** ** Reading numbers *)

Section ReadingNumbers.

Lemma digit_is_plain (c : ascii) :
  is_digit c = true ->
  numeric_space c = false /\ c <> "-"%char /\ c <> "+"%char /\ c <> "_"%char
  /\ c <> ","%char /\ c <> "K"%char /\ c <> "M"%char /\ c <> " "%char
  /\ upper_char c = c /\ 0 <= digit_value c <= 9.
Proof.
  destruct c as [[] [] [] [] [] [] [] []]; vm_compute; intros Hd;
    try discriminate Hd;
    repeat split; try discriminate; intros E; discriminate E.
Qed.

Lemma append_cons (c : ascii) (s t : string) :
  (String c s ++ t)%string = String c (s ++ t)%string.
Proof. reflexivity. Qed.


Lemma digits_tail_digits (s : string) :
  all_chars is_digit s = true ->
  forall acc n : Z,
    digits_tail acc n s = (decimal_from acc s, n + Z.of_nat (String.length s), "").
Proof.
  induction s as [| c s IH]; intros Hall acc n; cbn [digits_tail decimal_from String.length].
  - f_equal. f_equal. lia.
  - cbn [all_chars] in Hall. apply andb_prop in Hall. destruct Hall as [Hc Hs].
    rewrite Hc, (IH Hs). f_equal. f_equal. lia.
Qed.

Lemma lstrip_digits (s : string) :
  starts_with_digit s = true -> lstrip_by numeric_space s = s.
Proof.
  destruct s as [| c s]; [discriminate |]. cbn [starts_with_digit lstrip_by].
  intros Hc. destruct (digit_is_plain c Hc) as (-> & _). reflexivity.
Qed.

Lemma rstrip_digits (s : string) :
  all_chars is_digit s = true -> rstrip_by numeric_space s = s.
Proof.
  induction s as [| c s IH]; [reflexivity |]. cbn [all_chars rstrip_by].
  intros Hall. apply andb_prop in Hall. destruct Hall as [Hc Hs].
  rewrite (IH Hs). destruct (digit_is_plain c Hc) as (-> & _).
  destruct s; reflexivity.
Qed.

Lemma sign_of_digit (c : ascii) (s : string) :
  is_digit c = true -> sign (String c s) = (false, String c s).
Proof.
  destruct c as [[] [] [] [] [] [] [] []]; intros Hc; vm_compute in Hc;
    try discriminate Hc; reflexivity.
Qed.

(** [int()] of a run of digits is the number the digits write. *)
Lemma int_of_digits (s : string) :
  all_chars is_digit s = true -> s <> "" -> int_of_str s = Ok (decimal_value s).
Proof.
  intros Hall Hne. destruct s as [| c s]; [contradiction |].
  pose proof Hall as Hall'. cbn [all_chars] in Hall'.
  apply andb_prop in Hall'. destruct Hall' as [Hc Hs].
  unfold int_of_str.
  rewrite (lstrip_digits (String c s)) by exact Hc.
  rewrite (rstrip_digits _ Hall).
  rewrite (sign_of_digit c s Hc). cbn [digitpart]. rewrite Hc.
  rewrite (digits_tail_digits s Hs). reflexivity.
Qed.

Lemma decimal_from_nonneg (s : string) :
  all_chars is_digit s = true -> forall acc, 0 <= acc -> 0 <= decimal_from acc s.
Proof.
  induction s as [| c s IH]; intros Hall acc Hacc; cbn [decimal_from]; [exact Hacc |].
  cbn [all_chars] in Hall. apply andb_prop in Hall. destruct Hall as [Hc Hs].
  apply (IH Hs). destruct (digit_is_plain c Hc) as (_ & _ & _ & _ & _ & _ & _ & _ & _ & Hv).
  lia.
Qed.

(** Every run [findall_digits] returns is a run of digits, not empty. *)
Lemma findall_digits_runs (s : string) :
  Forall (fun r => all_chars is_digit r = true /\ r <> "") (findall_digits s).
Proof.
  induction s as [| c s IH]; cbn [findall_digits]; [constructor |].
  destruct (is_digit c) eqn:Hc; [| exact IH].
  destruct (findall_digits s) as [| r rs].
  - constructor; [| constructor]. cbn [all_chars]. rewrite Hc. split; [reflexivity | discriminate].
  - inversion IH as [| ? ? [Hr Hne] Hrs]; subst.
    destruct (starts_with_digit s).
    + constructor; [| exact Hrs]. cbn [all_chars]. rewrite Hc, Hr. split; [reflexivity | discriminate].
    + constructor; [| exact IH]. cbn [all_chars]. rewrite Hc. split; [reflexivity | discriminate].
Qed.




Lemma upper_char_idempotent (c : ascii) : upper_char (upper_char c) = upper_char c.
Proof. destruct c as [[] [] [] [] [] [] [] []]; reflexivity. Qed.

Lemma upper_char_comma (c : ascii) : Ascii.eqb (upper_char c) "," = Ascii.eqb c ",".
Proof. destruct c as [[] [] [] [] [] [] [] []]; reflexivity. Qed.

Lemma upper_idempotent (s : string) : upper (upper s) = upper s.
Proof.
  induction s as [| c s IH]; [reflexivity |]. cbn [upper].
  rewrite upper_char_idempotent, IH. reflexivity.
Qed.

Lemma upper_remove_comma (s : string) :
  upper (remove_char "," s) = remove_char "," (upper s).
Proof.
  induction s as [| c s IH]; [reflexivity |]. cbn [upper remove_char].
  rewrite upper_char_comma. destruct (Ascii.eqb c ","); [exact IH |].
  cbn [upper]. rewrite IH. reflexivity.
Qed.

Lemma remove_char_idempotent (c : ascii) (s : string) :
  remove_char c (remove_char c s) = remove_char c s.
Proof.
  induction s as [| d s IH]; [reflexivity |]. cbn [remove_char].
  destruct (Ascii.eqb d c) eqn:E; [exact IH |].
  cbn [remove_char]. rewrite E, IH. reflexivity.
Qed.

Lemma remove_char_commute (a b : ascii) (s : string) :
  remove_char a (remove_char b s) = remove_char b (remove_char a s).
Proof.
  induction s as [| d s IH]; [reflexivity |]. cbn [remove_char].
  destruct (Ascii.eqb d b) eqn:Eb; destruct (Ascii.eqb d a) eqn:Ea;
    cbn [remove_char]; rewrite ?Ea, ?Eb, ?IH; reflexivity.
Qed.

(** [_parse_count] through the text it works on. *)
Lemma parse_count_of_normalised (s : string) :
  _parse_count s
  = match parse_suffixed multipliers (normalised s) with
    | Some r => r
    | None => try_except (int_of_str (normalised s)) (Ok 0)
    end.
Proof.
  unfold _parse_count. destruct (String.eqb s "") eqn:E; [| reflexivity].
  apply String.eqb_eq in E. subst s. reflexivity.
Qed.

(** X2: letter case and thousands separators never change what
    [_parse_count] returns: two texts that agree once uppercased and
    rid of their commas give the same count; in particular the text
    uppercased, and the text without its commas, give the count of the
    text. *)
Theorem parse_count_ignores_case_and_commas :
  (forall s1 s2 : string,
      normalised s1 = normalised s2 -> _parse_count s1 = _parse_count s2)
  /\ (forall s : string, _parse_count (upper s) = _parse_count s)
  /\ (forall s : string, _parse_count (remove_char "," s) = _parse_count s).
Proof.
  assert (Hsame : forall s1 s2 : string,
             normalised s1 = normalised s2 -> _parse_count s1 = _parse_count s2).
  { intros s1 s2 E. rewrite !parse_count_of_normalised, E. reflexivity. }
  split; [exact Hsame |]. split; intros s; apply Hsame; unfold normalised.
  - rewrite upper_idempotent. reflexivity.
  - rewrite upper_remove_comma, remove_char_idempotent. reflexivity.
Qed.





(** X4: for a text cell, [parse_korean_number] depends only on the
    text rid of its commas and blanks: two texts that agree without
    them parse to the same number; so a text parses like itself with
    them removed. *)
Theorem parse_korean_number_ignores_separators :
  (forall s1 s2 : string,
      remove_char " " (remove_char "," s1) = remove_char " " (remove_char "," s2) ->
      parse_korean_number (CStr s1) = parse_korean_number (CStr s2))
  /\ (forall s : string,
        parse_korean_number (CStr (remove_char " " (remove_char "," s)))
        = parse_korean_number (CStr s)).
Proof.
  assert (Hclean : forall s : string,
             parse_korean_number (CStr s)
             = or_default
                 (bind (float_of_str (remove_char " " (remove_char "," s))) int_of_float) 0).
  { intros s. destruct s as [| c s]; [reflexivity |].
    cbv beta iota delta [parse_korean_number].
    destruct (bind _ int_of_float); reflexivity. }
  assert (Hsame : forall s1 s2 : string,
             remove_char " " (remove_char "," s1) = remove_char " " (remove_char "," s2) ->
             parse_korean_number (CStr s1) = parse_korean_number (CStr s2)).
  { intros s1 s2 E. rewrite !Hclean, E. reflexivity. }
  split; [exact Hsame |]. intros s. apply Hsame.
  rewrite (remove_char_commute "," " " (remove_char "," s)).
  rewrite (remove_char_idempotent "," s), (remove_char_idempotent " ").
  reflexivity.
Qed.

End ReadingNumbers.

(** ** Filtering, again *)

Section FilterAgain.

Lemma filter_map_commute {A B : Type} (f : A -> B) (P : B -> Prop) (Q : A -> Prop)
    `{!forall y, Decision (P y)} `{!forall x, Decision (Q x)} (l : list A) :
  (forall x, P (f x) <-> Q x) ->
  filter P (map f l) = map f (filter Q l).
Proof.
  intros HPQ. induction l as [| x l IH]; [reflexivity |].
  cbn [map]. rewrite !filter_cons.
  destruct (decide (P (f x))) as [HP | HP]; destruct (decide (Q x)) as [HQ | HQ].
  - cbn [map]. f_equal. exact IH.
  - apply HPQ in HP. contradiction.
  - apply HPQ in HQ. contradiction.
  - exact IH.
Qed.

Lemma passes_with_helpers (cfg : Config) (r : Row) :
  passes cfg (with_helpers r) <-> within_bounds cfg r.
Proof.
  unfold passes, within_bounds.
  destruct (with_helpers_int_at r) as (-> & -> & ->). tauto.
Qed.

Lemma within_bounds_drop_helpers (cfg : Config) (r : Row) :
  within_bounds cfg (drop_helpers r) <-> within_bounds cfg r.
Proof.
  unfold within_bounds.
  rewrite !metric_drop_helpers
    by (apply metric_names_not_helpers; rewrite !elem_of_cons; tauto).
  tauto.
Qed.

Lemma drop_helpers_idempotent (r : Row) : drop_helpers (drop_helpers r) = drop_helpers r.
Proof.
  apply row_ext; [reflexivity |]. apply map_eq. intros name.
  rewrite !drop_helpers_lookup. case_bool_decide; reflexivity.
Qed.

(** The rows the filter returns, in terms of the rows it is given. *)
Lemma apply_video_filters_within (cfg : Config) (df : DataFrame) :
  has_metric_columns df ->
  apply_video_filters cfg df
  = Ok {| df_columns := filter (fun c => c ∉ helper_columns) (df_columns df);
          df_rows := map drop_helpers (filter (within_bounds cfg) (df_rows df)) |}.
Proof.
  intros Hcols. rewrite (apply_video_filters_rows cfg df Hcols). f_equal. f_equal.
  rewrite (filter_map_commute with_helpers (passes cfg) (within_bounds cfg))
    by (intros r; apply passes_with_helpers).
  rewrite map_map. apply map_ext. exact drop_with_helpers.
Qed.

Lemma apply_video_filters_missing_column (cfg : Config) (df : DataFrame) :
  ~ has_metric_columns df -> apply_video_filters cfg df = Raise AttributeError.
Proof.
  intros Hmissing. unfold apply_video_filters.
  destruct (decide (col_comments ∈ df_columns df)) as [Hc | Hc];
    [| rewrite (add_parsed_absent _ _ _ Hc); reflexivity].
  rewrite (add_parsed_present int_comments col_comments df Hc). cbn [bind].
  destruct (decide (col_likes ∈ df_columns df)) as [Hl | Hl].
  2:{ rewrite add_parsed_absent
        by (cbn [df_columns]; apply appended_absent; [exact Hl | discriminate]).
      reflexivity. }
  rewrite add_parsed_present by (cbn [df_columns]; apply appended_keeps; exact Hl).
  cbn [bind df_columns df_rows].
  destruct (decide (col_views ∈ df_columns df)) as [Hv | Hv];
    [exfalso; apply Hmissing; unfold has_metric_columns; tauto |].
  rewrite add_parsed_absent
    by (cbn [df_columns]; apply appended_absent;
        [apply appended_absent; [exact Hv | discriminate] | discriminate]).
  reflexivity.
Qed.

(** X5: the filter keeps exactly the rows whose parsed metrics lie
    within the six bounds, each bound included, a minimum of 0 or less
    and an absent maximum counting as no bound; they come back in the
    table's order, without their helper cells. *)
Theorem filter_keeps_rows_within_bounds (cfg : Config) (df out : DataFrame) :
  apply_video_filters cfg df = Ok out ->
  df_rows out = map drop_helpers (filter (within_bounds cfg) (df_rows df))
  /\ (forall r' : Row,
        r' ∈ df_rows out <->
        exists r : Row, r ∈ df_rows df /\ within_bounds cfg r /\ r' = drop_helpers r).
Proof.
  intros Hout.
  pose proof (apply_video_filters_needs_columns cfg df out Hout) as Hcols.
  rewrite (apply_video_filters_within cfg df Hcols) in Hout. injection Hout as <-.
  cbn [df_rows].
  assert (Hiff : forall r' : Row,
             r' ∈ map drop_helpers (filter (within_bounds cfg) (df_rows df)) <->
             exists r : Row, r ∈ df_rows df /\ within_bounds cfg r /\ r' = drop_helpers r).
  { intros r'. split.
    - intros Hin. apply (list_elem_of_fmap_1 drop_helpers) in Hin.
      destruct Hin as (r & -> & Hr). apply list_elem_of_filter in Hr.
      exists r. tauto.
    - intros (r & Hr & Hw & ->). apply (list_elem_of_fmap_2 drop_helpers).
      apply list_elem_of_filter. tauto. }
  split; [reflexivity | exact Hiff].
Qed.

Lemma filter_keeps_rows_within_bounds_witness :
  exists out : DataFrame,
    apply_video_filters config (Sim.table Sim.three_rows) = Ok out
    /\ df_rows out = map drop_helpers (filter (within_bounds config) Sim.three_rows).
Proof.
  pose proof (apply_video_filters_within config _ three_rows_have_metric_columns)
    as Hout.
  eexists. split; [exact Hout |].
  exact (proj1 (filter_keeps_rows_within_bounds config _ _ Hout)).
Defined.

Lemma filter_twice_over (cfg1 cfg2 : Config) (df : DataFrame) :
  has_metric_columns df ->
  bind (apply_video_filters cfg1 df) (apply_video_filters cfg2)
  = Ok {| df_columns := filter (fun c => c ∉ helper_columns) (df_columns df);
          df_rows :=
            map drop_helpers
                (filter (fun r => within_bounds cfg1 r /\ within_bounds cfg2 r)
                        (df_rows df)) |}.
Proof.
  intros Hcols. rewrite (apply_video_filters_within cfg1 df Hcols). cbn [bind].
  rewrite apply_video_filters_within by exact (metric_columns_kept df Hcols).
  cbn [df_columns df_rows]. f_equal. f_equal; [apply filter_twice |].
  rewrite (filter_map_commute drop_helpers (within_bounds cfg2) (within_bounds cfg2))
    by (intros r; apply within_bounds_drop_helpers).
  rewrite map_map, list_filter_filter.
  rewrite (map_ext _ _ drop_helpers_idempotent). f_equal.
  apply list_filter_iff. tauto.
Qed.

(** X6: filtering with one set of bounds and then with another keeps
    the rows that lie within both, and the order of the two filterings
    does not matter (on a table without the metric columns either order
    raises the same error). *)
Theorem filters_commute (cfg1 cfg2 : Config) (df : DataFrame) :
  bind (apply_video_filters cfg1 df) (apply_video_filters cfg2)
  = bind (apply_video_filters cfg2 df) (apply_video_filters cfg1)
  /\ (forall out : DataFrame,
        bind (apply_video_filters cfg1 df) (apply_video_filters cfg2) = Ok out ->
        df_rows out
        = map drop_helpers
              (filter (fun r => within_bounds cfg1 r /\ within_bounds cfg2 r)
                      (df_rows df))).
Proof.
  destruct (decide (has_metric_columns df)) as [Hcols | Hmissing].
  - rewrite (filter_twice_over cfg1 cfg2 df Hcols), (filter_twice_over cfg2 cfg1 df Hcols).
    split.
    + f_equal. f_equal. f_equal. apply list_filter_iff. tauto.
    + intros out [= <-]. reflexivity.
  - rewrite !(apply_video_filters_missing_column _ df Hmissing).
    split; [reflexivity | discriminate].
Qed.

End FilterAgain.

Section WhichVideos.

Context {W : Type} `{Browser W}.

(** X7: the run scrapes exactly the rows of the table whose metrics lie
    within the bounds, in the table's order, each without the helper
    cells; and when the table lacks one of the three metric columns the
    filter raises [AttributeError] (the default of [df.get] is an int,
    which has no [apply]), which ends the run before any video is
    opened. *)
Theorem process_videos_visits_rows_within_bounds
    (cfg : Config) (df : DataFrame) (self : Scraper) :
  (has_metric_columns df ->
   process_videos cfg df self
   = Ok (process_rows cfg
           (map drop_helpers (filter (within_bounds cfg) (df_rows df))) self))
  /\ (~ has_metric_columns df ->
      apply_video_filters cfg df = Raise AttributeError
      /\ process_videos cfg df self = Raise AttributeError).
Proof.
  unfold process_videos. split.
  - intros Hcols. rewrite (apply_video_filters_within cfg df Hcols). reflexivity.
  - intros Hmissing. rewrite (apply_video_filters_missing_column cfg df Hmissing).
    split; reflexivity.
Qed.

End WhichVideos.

(** X7 on the table of three videos, at the shipped configuration. *)
Lemma process_videos_visits_rows_within_bounds_witness :
  process_videos config (Sim.table Sim.three_rows) (Sim.fresh Sim.three_videos)
  = Ok (process_rows config
          (map drop_helpers (filter (within_bounds config) Sim.three_rows))
          (Sim.fresh Sim.three_videos)).
Proof.
  pose proof (process_videos_visits_rows_within_bounds config (Sim.table Sim.three_rows)
                (Sim.fresh Sim.three_videos)) as [Hrun _].
  exact (Hrun three_rows_have_metric_columns).
Defined.

(** ** The configuration *)

Section Configuration.

Lemma no_complaint {A : Type} (b : bool) (x : A) :
  (if b then [x] else []) = [] <-> b = false.
Proof. destruct b; split; intros E; try discriminate E; reflexivity. Qed.

(** X8: [validate_config] accepts exactly the configurations whose two
    timeouts, scroll limit, scroll delay and patience are positive and
    whose video delay and three minima are not negative, and raises
    [ValueError] on every other; it looks at no other setting. *)
Theorem validate_config_accepts (cfg : Config) :
  (validate_config cfg = Ok true <->
   0 < DEFAULT_TIMEOUT cfg /\ 0 < PAGE_LOAD_WAIT cfg
   /\ 0 < MAX_SCROLL_ATTEMPTS cfg /\ 0 < SCROLL_DELAY cfg
   /\ 0 < MAX_NO_NEW_COMMENTS cfg /\ 0 <= VIDEO_DELAY cfg
   /\ 0 <= MIN_COMMENTS cfg /\ 0 <= MIN_LIKES cfg /\ 0 <= MIN_VIEWS cfg)
  /\ (validate_config cfg <> Ok true -> validate_config cfg = Raise ValueError).
Proof.
  split.
  - assert (Hnil : validate_config cfg = Ok true <-> config_errors cfg = [])
      by (unfold validate_config; destruct (config_errors cfg);
          split; intros E; try discriminate E; reflexivity).
    rewrite Hnil. unfold config_errors.
    rewrite !app_nil, !no_complaint.
    rewrite !Z.leb_gt, !Z.ltb_ge. tauto.
  - unfold validate_config. destruct (config_errors cfg); [contradiction | reflexivity].
Qed.

End Configuration.

(** ** The controller, again *)

Section ControllerAgain.

Context {W : Type} `{Browser W}.
Variable cfg : Config.

Lemma final_attempts_spec (k : nat) (last_count : Z) :
  forall w : W,
    ((final_attempts k last_count w).1 = true ->
     last_count < len (_get_current_comments (final_attempts k last_count w).2))
    /\ ((final_attempts k last_count w).1 = false ->
        (0 < k)%nat ->
        len (_get_current_comments (final_attempts k last_count w).2) <= last_count).
Proof.
  induction k as [| k IH]; intros w; cbn [final_attempts].
  - cbn [fst snd]. split; [discriminate | lia].
  - destruct (_youtube_specific_scroll w) as [ok w1].
    destruct (last_count <? len (_get_current_comments (sleep 4 w1))) eqn:E.
    + cbn [fst snd]. apply Z.ltb_lt in E. split; [intros _; exact E | discriminate].
    + apply Z.ltb_ge in E. destruct (IH (sleep 4 w1)) as [Hfound Hnone].
      split; [exact Hfound |]. intros Hf _.
      destruct k as [| k]; [cbn [final_attempts snd]; exact E |].
      apply Hnone; [exact Hf | lia].
Qed.

(** X9: once the stall count has reached the patience limit,
    [_should_stop_scrolling] lets the scrolling go on only if a
    last-resort attempt has left the page with more comments than the
    observed count; when it says stop, the page after the third attempt
    shows no more than that count. *)
Theorem patience_exhausted_decision (n observed : Z) (w : W) :
  MAX_NO_NEW_COMMENTS cfg <= n ->
  ((_should_stop_scrolling cfg n observed w).1 = false ->
   observed < len (_get_current_comments (_should_stop_scrolling cfg n observed w).2))
  /\ ((_should_stop_scrolling cfg n observed w).1 = true ->
      len (_get_current_comments (_should_stop_scrolling cfg n observed w).2) <= observed).
Proof.
  intros HP. unfold _should_stop_scrolling, _try_final_scroll.
  rewrite (proj2 (Z.leb_le _ _)) by exact HP.
  destruct (final_attempts_spec 3 observed w) as [Hfound Hnone].
  destruct (final_attempts 3 observed w) as [found w']. cbn [fst snd] in *.
  destruct found; cbn [fst snd]; split; try discriminate.
  - intros _. exact (Hfound eq_refl).
  - intros _. apply Hnone; [reflexivity | lia].
Qed.

(** X10: with a patience limit of 15 or less (the shipped one is 1) the
    probe for the related-videos section is never consulted: below the
    limit [_should_stop_scrolling] says go on and leaves the page alone,
    and from the limit on its answer is that of the last-resort
    attempts. *)
Theorem related_probe_is_dead_at_low_patience (n observed : Z) (w : W) :
  MAX_NO_NEW_COMMENTS cfg <= 15 ->
  _should_stop_scrolling cfg n observed w
  = if MAX_NO_NEW_COMMENTS cfg <=? n
    then (negb (_try_final_scroll observed w).1, (_try_final_scroll observed w).2)
    else (false, w).
Proof.
  intros HP. unfold _should_stop_scrolling.
  destruct (MAX_NO_NEW_COMMENTS cfg <=? n) eqn:E.
  - destruct (_try_final_scroll observed w) as [found w']. destruct found; reflexivity.
  - apply Z.leb_gt in E. rewrite (proj2 (Z.leb_gt 15 n)) by lia. reflexivity.
Qed.

Lemma scroll_loop_exit (fuel : nat) :
  forall (st : ScrollState) (w : W),
    0 <= no_new_comments_count st ->
    MAX_SCROLL_ATTEMPTS cfg - scroll_attempts st <= Z.of_nat fuel ->
    let run := scroll_loop cfg fuel st w in
    MAX_SCROLL_ATTEMPTS cfg <= scroll_attempts run.1
    \/ (0 < no_new_comments_count run.1
        /\ ((MAX_NO_NEW_COMMENTS cfg <= no_new_comments_count run.1
             /\ len (_get_current_comments run.2) <= last_comment_count run.1)
            \/ (no_new_comments_count run.1 < MAX_NO_NEW_COMMENTS cfg
                /\ 15 <= no_new_comments_count run.1
                /\ last_comment_count run.1 < 100
                /\ _detect_related_videos_section run.2 = true))).
Proof.
  induction fuel as [| fuel IH]; intros st w Hstall Hfuel; cbn [scroll_loop].
  - left. cbn [fst]. lia.
  - destruct (scroll_attempts st <? MAX_SCROLL_ATTEMPTS cfg) eqn:G;
      [| left; apply Z.ltb_ge in G; exact G].
    unfold scroll_iteration, _has_new_comments.
    destruct (advance_and_count cfg st w) as [current w1].
    destruct (last_comment_count st <? current) eqn:Enew.
    + apply IH; cbn [no_new_comments_count scroll_attempts]; lia.
    + set (n := no_new_comments_count st + 1).
      set (w2 := if (MAX_NO_NEW_COMMENTS cfg / 2 <=? n) && (last_comment_count st <? 50)
                 then _extra_patient_scroll w1 else w1).
      destruct (_should_stop_scrolling cfg n (last_comment_count st) w2)
        as [stop w3] eqn:Estop.
      destruct stop.
      * right. cbn [fst snd no_new_comments_count last_comment_count].
        split; [unfold n; lia |].
        destruct (Z.le_gt_cases (MAX_NO_NEW_COMMENTS cfg) n) as [HP | HP].
        -- left. split; [exact HP |].
           pose proof (patience_exhausted_decision n (last_comment_count st) w2 HP)
             as [_ Hstop].
           rewrite Estop in Hstop. exact (Hstop eq_refl).
        -- right. revert Estop. unfold _should_stop_scrolling.
           rewrite (proj2 (Z.leb_gt _ _)) by lia.
           destruct ((15 <=? n) && (last_comment_count st <? 100)) eqn:Egate;
             [| discriminate].
           apply andb_prop in Egate. destruct Egate as [E15 E100].
           apply Z.leb_le in E15. apply Z.ltb_lt in E100.
           destruct (_detect_related_videos_section w2) eqn:Eprobe; [| discriminate].
           intros [= <-]. repeat split; assumption.
      * apply IH; cbn [no_new_comments_count scroll_attempts]; unfold n; lia.
Qed.

(** X11: the loop of [_perform_smart_scroll] ends in one of three ways
    only: the attempt budget is used up; or a turn without new comments
    has brought the stall count to the patience limit and three
    last-resort attempts have left the page with no more comments than
    observed; or, below the patience limit, the stall count is at least
    15, the observed count below 100 and the probe for the
    related-videos section answers yes.  It never ends right after a
    turn that found new comments unless the budget is used up. *)
Theorem scroll_loop_stopping_rule (w : W) :
  let run :=
    scroll_loop cfg (Z.to_nat (MAX_SCROLL_ATTEMPTS cfg)) (initial_scroll_state w) w in
  MAX_SCROLL_ATTEMPTS cfg <= scroll_attempts run.1
  \/ (0 < no_new_comments_count run.1
      /\ ((MAX_NO_NEW_COMMENTS cfg <= no_new_comments_count run.1
           /\ len (_get_current_comments run.2) <= last_comment_count run.1)
          \/ (no_new_comments_count run.1 < MAX_NO_NEW_COMMENTS cfg
              /\ 15 <= no_new_comments_count run.1
              /\ last_comment_count run.1 < 100
              /\ _detect_related_videos_section run.2 = true))).
Proof.
  apply scroll_loop_exit; cbn [initial_scroll_state no_new_comments_count scroll_attempts];
    lia.
Qed.

End ControllerAgain.

(** X9 at the shipped patience of one stall, on a page whose three
    comments are all there are. *)
Lemma patience_exhausted_decision_witness :
  len (_get_current_comments (_should_stop_scrolling config 1 3 Sim.trailing_page).2) <= 3.
Proof.
  assert (HP : MAX_NO_NEW_COMMENTS config <= 1) by (vm_compute; discriminate).
  pose proof (patience_exhausted_decision config 1 3 Sim.trailing_page HP) as [_ Hstop].
  apply Hstop. vm_compute. reflexivity.
Defined.

(** X10 at the shipped configuration, before the first stall. *)
Lemma related_probe_is_dead_at_low_patience_witness :
  _should_stop_scrolling config 0 3 Sim.trailing_page = (false, Sim.trailing_page).
Proof.
  assert (HP : MAX_NO_NEW_COMMENTS config <= 15) by (vm_compute; discriminate).
  exact (related_probe_is_dead_at_low_patience config 0 3 Sim.trailing_page HP).
Defined.

(** ** How many advance steps *)

Section AdvanceSteps.

Context {W : Type} {B : Browser W}.
Variable cfg : Config.

Lemma final_attempts_counted (k : nat) (last_count : Z) :
  forall (w : W) (n : nat),
    exists j : nat,
      (j <= k)%nat
      /\ @final_attempts _ (counting B) k last_count (w, n)
         = ((final_attempts k last_count w).1,
            ((final_attempts k last_count w).2, (n + j)%nat)).
Proof.
  induction k as [| k IH]; intros w n.
  - exists 0%nat. split; [lia |]. cbn. rewrite Nat.add_0_r. reflexivity.
  - cbn [final_attempts]. cbn [_youtube_specific_scroll counting fst snd].
    destruct (_youtube_specific_scroll w) as [ok w1]. cbn [fst snd].
    unfold _get_current_comments. cbn [find_comment_threads sleep counting fst snd].
    destruct (last_count <? len (find_comment_threads (sleep 4 w1))).
    + exists 1%nat. split; [lia |]. cbn [fst snd]. rewrite Nat.add_1_r. reflexivity.
    + destruct (IH (sleep 4 w1) (S n)) as (j & Hj & E).
      exists (S j). split; [lia |]. rewrite E. rewrite Nat.add_succ_r. reflexivity.
Qed.

Lemma should_stop_counted (no_new observed : Z) (w : W) (n : nat) :
  exists j : nat,
    (j <= 3)%nat
    /\ @_should_stop_scrolling _ (counting B) cfg no_new observed (w, n)
       = ((_should_stop_scrolling cfg no_new observed w).1,
          ((_should_stop_scrolling cfg no_new observed w).2, (n + j)%nat)).
Proof.
  unfold _should_stop_scrolling, _try_final_scroll.
  destruct (MAX_NO_NEW_COMMENTS cfg <=? no_new).
  - destruct (final_attempts_counted 3 observed w n) as (j & Hj & E).
    exists j. split; [exact Hj |]. rewrite E.
    destruct (final_attempts 3 observed w) as [found w']. cbn [fst snd].
    destruct found; reflexivity.
  - exists 0%nat. split; [lia |]. rewrite Nat.add_0_r.
    unfold _detect_related_videos_section. cbn [count_elements counting fst snd].
    destruct ((15 <=? no_new) && (observed <? 100)); [| reflexivity].
    destruct (15 <? count_elements "ytd-compact-video-renderer" w)%nat; [| reflexivity].
    destruct ((0 <? count_elements "#comments" w)%nat
              || (0 <? count_elements "ytd-continuation-item-renderer" w)%nat);
      reflexivity.
Qed.

Lemma scroll_iteration_counted (st : ScrollState) (w : W) (n : nat) :
  exists j : nat,
    (1 <= j <= 4)%nat
    /\ @scroll_iteration _ (counting B) cfg st (w, n)
       = ((scroll_iteration cfg st w).1, ((scroll_iteration cfg st w).2, (n + j)%nat)).
Proof.
  unfold scroll_iteration, advance_and_count, _get_current_comments.
  cbn [_youtube_specific_scroll sleep find_comment_threads _extra_patient_scroll
       counting fst snd].
  destruct (_youtube_specific_scroll w) as [ok w1]. cbn [fst snd].
  set (delay := if 100 <? last_comment_count st
                then SCROLL_DELAY cfg + 1 else SCROLL_DELAY cfg).
  destruct (_has_new_comments (len (find_comment_threads (sleep delay w1)))
              (last_comment_count st)).
  - exists 1%nat. split; [lia |]. cbn [fst snd]. rewrite Nat.add_1_r. reflexivity.
  - set (gate := (MAX_NO_NEW_COMMENTS cfg / 2 <=? no_new_comments_count st + 1)
                 && (last_comment_count st <? 50)).
    set (w2 := if gate then _extra_patient_scroll (sleep delay w1) else sleep delay w1).
    assert (Hw2 : (if gate then (_extra_patient_scroll (sleep delay w1), S n)
                   else (sleep delay w1, S n)) = (w2, S n))
      by (unfold w2; destruct gate; reflexivity).
    rewrite Hw2.
    destruct (should_stop_counted (no_new_comments_count st + 1)
                (last_comment_count st) w2 (S n)) as (j & Hj & E).
    exists (S j). split; [lia |]. rewrite E.
    destruct (_should_stop_scrolling cfg _ _ w2) as [stop w3]. cbn [fst snd].
    rewrite Nat.add_succ_r. reflexivity.
Qed.

Lemma scroll_loop_counted (fuel : nat) :
  forall (st : ScrollState) (w : W) (n : nat),
    exists j : nat,
      (length (scroll_history cfg fuel st w) <= j
       <= 4 * length (scroll_history cfg fuel st w))%nat
      /\ @scroll_loop _ (counting B) cfg fuel st (w, n)
         = ((scroll_loop cfg fuel st w).1, ((scroll_loop cfg fuel st w).2, (n + j)%nat)).
Proof.
  induction fuel as [| fuel IH]; intros st w n; cbn [scroll_loop scroll_history].
  - exists 0%nat. split; [cbn; lia |]. rewrite Nat.add_0_r. reflexivity.
  - destruct (scroll_attempts st <? MAX_SCROLL_ATTEMPTS cfg).
    2:{ exists 0%nat. split; [cbn; lia |]. rewrite Nat.add_0_r. reflexivity. }
    destruct (scroll_iteration_counted st w n) as (j & Hj & E). rewrite E.
    destruct (scroll_iteration cfg st w) as [[stop st'] w']. cbn [fst snd].
    destruct stop.
    + exists j. split; [cbn [length]; lia | reflexivity].
    + destruct (IH st' w' (n + j)%nat) as (j' & Hj' & E').
      exists (j + j')%nat. split; [cbn [length]; lia |].
      rewrite E', Nat.add_assoc. reflexivity.
Qed.

(** X12: run beside a counter of advance steps, the loop of
    [_perform_smart_scroll] does to the page exactly what it does
    without the counter, and the counter ends between the number of
    turns made and four times that number (a turn advances once, and up
    to three times more in its last-resort attempts); so with a
    positive attempt limit the loop never advances more than four times
    that limit. *)
Theorem advance_steps_bounded (w : W) :
  0 < MAX_SCROLL_ATTEMPTS cfg ->
  let fuel := Z.to_nat (MAX_SCROLL_ATTEMPTS cfg) in
  let run := scroll_loop cfg fuel (initial_scroll_state w) w in
  exists steps : nat,
    @scroll_loop _ (counting B) cfg fuel (initial_scroll_state w) (w, 0%nat)
    = (run.1, (run.2, steps))
    /\ scroll_attempts run.1 <= Z.of_nat steps <= 4 * scroll_attempts run.1
    /\ Z.of_nat steps <= 4 * MAX_SCROLL_ATTEMPTS cfg.
Proof.
  intros Hpos fuel run.
  destruct (scroll_loop_counted fuel (initial_scroll_state w) w 0) as (j & Hj & E).
  destruct (scroll_loop_attempts cfg fuel (initial_scroll_state w) w) as [Hturns Hmax].
  fold run in Hturns, Hmax. cbn [initial_scroll_state scroll_attempts] in Hturns, Hmax.
  exists j. split; [exact E |]. split; lia.
Qed.

End AdvanceSteps.

(** X12 on the page scrolled past its three comments, at patience 20
    and 50 turns: fifteen turns, fifteen advance steps. *)
Lemma advance_steps_bounded_witness :
  exists steps : nat,
    @scroll_loop _ (counting Sim.browser) Sim.patient 50
      (initial_scroll_state Sim.trailing_page) (Sim.trailing_page, 0%nat)
    = ((scroll_loop Sim.patient 50 (initial_scroll_state Sim.trailing_page)
          Sim.trailing_page).1,
       ((scroll_loop Sim.patient 50 (initial_scroll_state Sim.trailing_page)
           Sim.trailing_page).2, steps))
    /\ Z.of_nat steps <= 4 * MAX_SCROLL_ATTEMPTS Sim.patient.
Proof.
  assert (Hpos : 0 < MAX_SCROLL_ATTEMPTS Sim.patient) by (vm_compute; reflexivity).
  destruct (advance_steps_bounded Sim.patient Sim.trailing_page Hpos)
    as (steps & Hrun & _ & Hbound).
  exists steps. split; [exact Hrun | exact Hbound].
Defined.

(** ** The run, again *)

Section RunAgain.

Context {W : Type} `{Browser W}.
Variable cfg : Config.

Local Open Scope list_scope.

Lemma process_row_cases (row : Row) (url : cell) (self : Scraper) :
  row_cells row !! "URL" = Some url ->
  let result := scrape_video_comments cfg url (row_cells row) self in
  all_comments (process_row cfg row self) = all_comments self ++ result.1
  /\ processed_videos (process_row cfg row self)
     = processed_videos self ++ match result.1 with [] => [] | _ => [url] end
  /\ failed_videos (process_row cfg row self) = failed_videos result.2.
Proof.
  intros Hurl. cbv zeta. unfold process_row. rewrite Hurl.
  destruct (scrape_video_comments_effect cfg url (row_cells row) self)
    as (Hall & Hproc & _).
  destruct (scrape_video_comments cfg url (row_cells row) self) as [comments s1].
  cbn [fst snd] in *.
  destruct comments as [| c comments];
    cbn [with_driver all_comments processed_videos failed_videos driver].
  - rewrite !app_nil_r. split; [exact Hall |]. split; [exact Hproc | reflexivity].
  - rewrite Hall, Hproc. split; [reflexivity |]. split; reflexivity.
Qed.

(** What one row adds to the three lists. *)
Lemma process_row_adds (row : Row) (self : Scraper) :
  exists (cs : list CommentRecord) (us : list cell) (fs : list FailedVideo),
    all_comments (process_row cfg row self) = all_comments self ++ cs
    /\ processed_videos (process_row cfg row self) = processed_videos self ++ us
    /\ failed_videos (process_row cfg row self) = failed_videos self ++ fs
    /\ (length us + length fs <= 1)%nat
    /\ (cs = [] <-> us = [])
    /\ Forall (fun c => video_url (meta c) ∈ us) cs
    /\ Forall (fun u => row_cells row !! "URL" = Some u) us
    /\ Forall (fun f => row_cells row !! "URL" = Some (failed_url f)) fs.
Proof.
  destruct (row_cells row !! "URL") as [url |] eqn:Hurl.
  2:{ exists [], [], []. unfold process_row. rewrite Hurl, !app_nil_r.
      repeat split; try reflexivity; try constructor. cbn. lia. }
  destruct (process_row_cases row url self Hurl) as (Hall & Hproc & Hfailed).
  destruct (scrape_video_comments_effect cfg url (row_cells row) self)
    as (_ & _ & Hkeep & Hgone & Hurls).
  cbv zeta in *. rewrite Hurl in Hurls. cbn [default] in Hurls.
  destruct (check_video_availability cfg url (driver self)) as [available w1].
  cbn [fst] in *.
  destruct (scrape_video_comments cfg url (row_cells row) self) as [comments s1].
  cbn [fst snd] in *. destruct available.
  - exists comments, (match comments with [] => [] | _ => [url] end), [].
    rewrite app_nil_r, Hfailed, (Hkeep eq_refl).
    split; [exact Hall |]. split; [exact Hproc |]. split; [reflexivity |].
    destruct comments as [| c comments].
    + repeat split; try reflexivity; try constructor. cbn. lia.
    + split; [cbn; lia |]. split; [split; discriminate |].
      split; [| split; constructor; [reflexivity | constructor]].
      eapply Forall_impl; [exact Hurls |].
      intros c' ->. apply list_elem_of_singleton. reflexivity.
  - destruct (Hgone eq_refl) as (-> & t & Ht).
    exists [], [], [unavailable url t]. rewrite Hfailed, Ht, !app_nil_r in *.
    split; [exact Hall |]. split; [exact Hproc |]. split; [reflexivity |].
    split; [cbn; lia |]. split; [split; reflexivity |].
    split; [constructor |]. split; [constructor |].
    constructor; [reflexivity | constructor].
Qed.

Lemma process_rows_adds (rows : list Row) :
  forall self : Scraper,
    exists (cs : list CommentRecord) (us : list cell) (fs : list FailedVideo),
      all_comments (process_rows cfg rows self) = all_comments self ++ cs
      /\ processed_videos (process_rows cfg rows self) = processed_videos self ++ us
      /\ failed_videos (process_rows cfg rows self) = failed_videos self ++ fs
      /\ (length us + length fs <= length rows)%nat
      /\ (cs = [] <-> us = [])
      /\ Forall (fun c => video_url (meta c) ∈ us) cs
      /\ Forall (fun u => exists c, c ∈ cs /\ video_url (meta c) = u) us
      /\ Forall (fun u => exists r, r ∈ rows /\ row_cells r !! "URL" = Some u) us
      /\ Forall (fun f => exists r, r ∈ rows /\ row_cells r !! "URL" = Some (failed_url f)) fs.
Proof.
  induction rows as [| row rows IH]; intros self.
  - exists [], [], []. cbn [process_rows fold_left]. rewrite !app_nil_r.
    repeat split; try reflexivity; try constructor.
  - change (process_rows cfg (row :: rows) self)
      with (process_rows cfg rows (process_row cfg row self)).
    destruct (process_row_adds row self)
      as (cs1 & us1 & fs1 & Ha1 & Hp1 & Hf1 & Hn1 & He1 & Hc1 & Hu1 & Hr1).
    destruct (IH (process_row cfg row self))
      as (cs2 & us2 & fs2 & Ha2 & Hp2 & Hf2 & Hn2 & He2 & Hc2 & Hs2 & Hu2 & Hr2).
    exists (cs1 ++ cs2), (us1 ++ us2), (fs1 ++ fs2).
    rewrite Ha2, Hp2, Hf2, Ha1, Hp1, Hf1, <- !app_assoc.
    split; [reflexivity |]. split; [reflexivity |]. split; [reflexivity |].
    split; [rewrite !length_app; cbn [length]; lia |].
    split.
    { split; intros E; apply app_eq_nil in E; destruct E as [E1 E2];
        [apply He1 in E1; apply He2 in E2 | apply He1 in E1; apply He2 in E2];
        subst; reflexivity. }
    split.
    { apply Forall_app. split; (eapply Forall_impl; [eassumption |]);
        intros c Hc; apply elem_of_app; [left | right]; exact Hc. }
    split.
    { apply Forall_app. split.
      - assert (Hsome : us1 = [] \/ exists c, c ∈ cs1).
        { destruct cs1 as [| c cs1]; [left; apply He1; reflexivity |].
          right. exists c. left. }
        destruct Hsome as [-> | [c Hc]]; [constructor |].
        apply Forall_forall. intros u Hu.
        exists c. split; [apply elem_of_app; left; exact Hc |].
        pose proof (proj1 (Forall_forall _ _) Hc1 c Hc) as Hin.
        pose proof (proj1 (Forall_forall _ _) Hu1 _ Hin) as E1.
        pose proof (proj1 (Forall_forall _ _) Hu1 u Hu) as E2. congruence.
      - eapply Forall_impl; [exact Hs2 |]. intros u (c & Hc & E).
        exists c. split; [apply elem_of_app; right; exact Hc | exact E]. }
    split.
    { apply Forall_app. split.
      - eapply Forall_impl; [exact Hu1 |]. intros u E. exists row. split; [left | exact E].
      - eapply Forall_impl; [exact Hu2 |]. intros u (r & Hr & E).
        exists r. split; [right; exact Hr | exact E]. }
    apply Forall_app. split.
    + eapply Forall_impl; [exact Hr1 |]. intros f E. exists row. split; [left | exact E].
    + eapply Forall_impl; [exact Hr2 |]. intros f (r & Hr & E).
      exists r. split; [right; exact Hr | exact E].
Qed.

(** X13: the loop of [process_videos] over the rows only appends to the
    scraper's three lists, and what it appends hangs together: a row
    adds at most one entry to the processed and failed lists taken
    together; comments are added exactly when processed URLs are; every
    added comment bears the URL of an added processed entry; every
    added processed URL has an added comment bearing it; and every
    added processed or failed URL is the URL cell of one of the rows. *)
Theorem run_only_appends (rows : list Row) (self : Scraper) :
  let final := process_rows cfg rows self in
  exists (cs : list CommentRecord) (us : list cell) (fs : list FailedVideo),
    all_comments final = all_comments self ++ cs
    /\ processed_videos final = processed_videos self ++ us
    /\ failed_videos final = failed_videos self ++ fs
    /\ (length us + length fs <= length rows)%nat
    /\ (cs = [] <-> us = [])
    /\ (forall c, c ∈ cs -> video_url (meta c) ∈ us)
    /\ (forall u, u ∈ us -> exists c, c ∈ cs /\ video_url (meta c) = u)
    /\ (forall u, u ∈ us -> exists r, r ∈ rows /\ row_cells r !! "URL" = Some u)
    /\ (forall f, f ∈ fs ->
        exists r, r ∈ rows /\ row_cells r !! "URL" = Some (failed_url f)).
Proof.
  cbv zeta.
  destruct (process_rows_adds rows self)
    as (cs & us & fs & Ha & Hp & Hf & Hn & He & Hc & Hs & Hu & Hr).
  exists cs, us, fs.
  split; [exact Ha |]. split; [exact Hp |]. split; [exact Hf |].
  split; [exact Hn |]. split; [exact He |].
  split; [exact (proj1 (Forall_forall _ _) Hc) |].
  split; [exact (proj1 (Forall_forall _ _) Hs) |].
  split; [exact (proj1 (Forall_forall _ _) Hu) | exact (proj1 (Forall_forall _ _) Hr)].
Qed.

(** X14: a video that is available but whose comments could not be
    loaded (no comment region, or none counted at the end of the
    scrolling) or of which no comment could be extracted is recorded
    nowhere: the turn of the loop leaves the comments, the processed
    list and the failed list as they were. *)
Theorem video_without_comments_leaves_no_trace
    (row : Row) (url : cell) (self : Scraper) :
  row_cells row !! "URL" = Some url ->
  (check_video_availability cfg url (driver self)).1 = true ->
  (smart_infinite_scroll cfg (check_video_availability cfg url (driver self)).2).1 = false
  \/ (scrape_video_comments cfg url (row_cells row) self).1 = [] ->
  (scrape_video_comments cfg url (row_cells row) self).1 = []
  /\ all_comments (process_row cfg row self) = all_comments self
  /\ processed_videos (process_row cfg row self) = processed_videos self
  /\ failed_videos (process_row cfg row self) = failed_videos self.
Proof.
  intros Hurl Hok Hnone.
  assert (Hempty : (scrape_video_comments cfg url (row_cells row) self).1 = []).
  { destruct Hnone as [Hscroll | Hnone]; [| exact Hnone].
    unfold scrape_video_comments.
    destruct (check_video_availability cfg url (driver self)) as [available w1].
    cbn [fst snd] in Hok, Hscroll. subst available. cbn [negb].
    destruct (smart_infinite_scroll cfg w1) as [loaded w2].
    cbn [fst] in Hscroll. subst loaded. reflexivity. }
  destruct (process_row_cases row url self Hurl) as (Hall & Hproc & Hfailed).
  destruct (scrape_video_comments_effect cfg url (row_cells row) self)
    as (_ & _ & Hkeep & _).
  cbv zeta in *. rewrite Hempty, app_nil_r in Hall, Hproc.
  split; [exact Hempty |]. split; [exact Hall |]. split; [exact Hproc |].
  rewrite Hfailed. exact (Hkeep Hok).
Qed.

End RunAgain.

(** X14 on a video whose comments are turned off, at the shipped
    configuration: after its turn the three lists are still empty. *)
Lemma video_without_comments_leaves_no_trace_witness :
  let self' :=
    process_row config (Sim.table_row 0 "u1" "20" "5" "900")
      (Sim.fresh [("u1", comments_off_video)]) in
  all_comments self' = [] /\ processed_videos self' = [] /\ failed_videos self' = [].
Proof.
  cbv zeta.
  assert (Hok : (check_video_availability config (CStr "u1")
                   (driver (Sim.fresh [("u1", comments_off_video)]))).1 = true)
    by (vm_compute; reflexivity).
  destruct (video_without_comments_leaves_no_trace config
              (Sim.table_row 0 "u1" "20" "5" "900") (CStr "u1")
              (Sim.fresh [("u1", comments_off_video)]) eq_refl Hok)
    as (_ & Hall & Hproc & Hfailed); [left; vm_compute; reflexivity |].
  rewrite Hall, Hproc, Hfailed. repeat split.
Defined.

(** ** What a record holds *)

Section RecordFields.

Lemma lstrip_first (p : ascii -> bool) (s : string) (c : ascii) :
  first_char (lstrip_by p s) = Some c -> p c = false.
Proof.
  induction s as [| a s IH]; cbn [lstrip_by]; [discriminate |].
  destruct (p a) eqn:Ha; [exact IH |].
  cbn [first_char]. intros E. injection E as <-. exact Ha.
Qed.

Lemma rstrip_keeps_first (p : ascii -> bool) (s : string) (c : ascii) :
  first_char (rstrip_by p s) = Some c -> first_char s = Some c.
Proof.
  destruct s as [| a s]; cbn [rstrip_by]; [discriminate |].
  destruct (rstrip_by p s); [destruct (p a); [discriminate |] |]; intros E; exact E.
Qed.

Lemma rstrip_last (p : ascii -> bool) (s : string) (c : ascii) :
  last_char (rstrip_by p s) = Some c -> p c = false.
Proof.
  induction s as [| a s IH]; cbn [rstrip_by]; [discriminate |].
  destruct (rstrip_by p s) as [| b r].
  - destruct (p a) eqn:Ha; [discriminate |].
    cbn [last_char]. intros E. injection E as <-. exact Ha.
  - exact IH.
Qed.

Lemma rstrip_empty (p : ascii -> bool) (s : string) :
  rstrip_by p s = "" <-> all_chars p s = true.
Proof.
  induction s as [| a s IH]; cbn [rstrip_by all_chars]; [split; reflexivity |].
  destruct (rstrip_by p s) as [| b r].
  - rewrite (proj1 IH eq_refl), andb_true_r.
    destruct (p a); split; try reflexivity; discriminate.
  - split; [discriminate |]. intros E. apply andb_prop in E. destruct E as [_ E].
    apply IH in E. discriminate E.
Qed.

Lemma lstrip_all (p : ascii -> bool) (s : string) :
  all_chars p (lstrip_by p s) = all_chars p s.
Proof.
  induction s as [| a s IH]; cbn [lstrip_by]; [reflexivity |].
  destruct (p a) eqn:Ha; [| reflexivity].
  cbn [all_chars]. rewrite Ha. exact IH.
Qed.

(** [s.strip()] is empty exactly when [s] is white space throughout. *)
Lemma strip_empty (s : string) : strip s = "" <-> all_chars isspace s = true.
Proof. unfold strip. rewrite rstrip_empty, lstrip_all. reflexivity. Qed.

Lemma strip_ends (s : string) (c : ascii) :
  first_char (strip s) = Some c \/ last_char (strip s) = Some c -> isspace c = false.
Proof.
  unfold strip. intros [E | E].
  - apply rstrip_keeps_first in E. exact (lstrip_first _ _ _ E).
  - exact (rstrip_last _ _ _ E).
Qed.

Lemma parse_reply_count_value (s : string) :
  exists n : Z, _parse_reply_count s = Ok n /\ 0 <= n.
Proof.
  unfold _parse_reply_count. pose proof (findall_digits_runs s) as Hruns.
  destruct (findall_digits s) as [| number rest].
  - exists 0. split; [reflexivity | lia].
  - inversion Hruns as [| ? ? [Hdigits Hne] _]; subst.
    rewrite (int_of_digits number Hdigits Hne). exists (decimal_value number).
    split; [reflexivity |]. apply decimal_from_nonneg; [exact Hdigits | lia].
Qed.

(** X15: [extract_comment_data] gives no record exactly when the
    [#content-text] element is missing or its text is white space
    throughout; and the text of a record it gives is that text trimmed:
    it begins and ends with a character that is no white space.  The
    author and the timestamp are trimmed or empty, the downvotes are
    always 0 and the reply count is never negative. *)
Theorem record_text_is_trimmed :
  (forall e : CommentElement,
      extract_comment_data e = None
      <-> match content_text e with
          | Some t => all_chars isspace t = true
          | None => True
          end)
  /\ (forall (e : CommentElement) (d : CommentData),
        extract_comment_data e = Some d ->
        (exists t, content_text e = Some t /\ comment_text d = strip t)
        /\ (forall c, first_char (comment_text d) = Some c
                      \/ last_char (comment_text d) = Some c -> isspace c = false)
        /\ (forall c, first_char (author_name d) = Some c
                      \/ last_char (author_name d) = Some c -> isspace c = false)
        /\ (forall c, first_char (timestamp d) = Some c
                      \/ last_char (timestamp d) = Some c -> isspace c = false)
        /\ downvotes d = 0
        /\ 0 <= reply_count d).
Proof.
  assert (Hends : forall (found : option string) (c : ascii),
             first_char (or_default (stripped_text found) "") = Some c
             \/ last_char (or_default (stripped_text found) "") = Some c ->
             isspace c = false).
  { intros [t |] c; cbn [stripped_text or_default]; [apply strip_ends |].
    intros [E | E]; discriminate E. }
  split.
  - intros e. unfold extract_comment_data, _extract_basic_comment_info,
      _extract_engagement_metrics, _extract_comment_metadata.
    cbn [comment_text]. destruct (content_text e) as [t |]; cbn [stripped_text or_default].
    + rewrite <- strip_empty. destruct (String.eqb_spec (strip t) "") as [E | E].
      * split; [intros _; exact E | reflexivity].
      * split; [discriminate | intros E'; contradiction].
    + split; reflexivity.
  - intros e d. unfold extract_comment_data, _extract_basic_comment_info,
      _extract_engagement_metrics, _extract_comment_metadata.
    cbn [comment_text].
    destruct (String.eqb_spec (or_default (stripped_text (content_text e)) "") "")
      as [E | E]; [discriminate |].
    intros Hd. injection Hd as <-.
    cbn [comment_text author_name timestamp downvotes reply_count].
    split.
    { destruct (content_text e) as [t |]; cbn [stripped_text or_default] in *;
        [exists t; split; reflexivity | contradiction]. }
    split; [apply Hends |]. split; [apply Hends |]. split; [apply Hends |].
    split; [reflexivity |].
    destruct (more_replies e) as [t |]; cbn [stripped_text bind or_default]; [| lia].
    destruct (parse_reply_count_value (strip t)) as (n & -> & Hn). exact Hn.
Qed.

End RecordFields.

(** X15 on a comment whose text has blanks around it. *)
Lemma record_text_is_trimmed_witness :
  exists d : CommentData,
    extract_thread (Sim.thread "  well said " "ann" "3") = Some d
    /\ first_char (comment_text d) = Some "w"%char
    /\ isspace "w" = false.
Proof.
  eexists. split; [vm_compute; reflexivity |]. split; [reflexivity |].
  destruct record_text_is_trimmed as [_ Hrecord].
  let t := eval cbv in (comment (Sim.thread "  well said " "ann" "3")) in
  match t with
  | Some ?e =>
      exact (proj1 (proj2 (Hrecord e _ eq_refl)) "w"%char (or_introl eq_refl))
  end.
Defined.

(** ** The table written at the end *)

Section SavedTable.

Lemma existing_columns_spec (df : DataFrame) (c : string) :
  c ∈ df_columns (_reorder_dataframe_columns df)
  <-> c ∈ column_order /\ c ∈ df_columns df.
Proof.
  unfold _reorder_dataframe_columns, df_select. cbn [df_columns].
  rewrite list_elem_of_filter. tauto.
Qed.

Lemma filter_agree {A : Type} (P Q : A -> Prop)
    `{!forall x, Decision (P x), !forall x, Decision (Q x)} (l : list A) :
  (forall x, x ∈ l -> P x <-> Q x) -> filter P l = filter Q l.
Proof.
  induction l as [| a l IH]; intros Hagree; [reflexivity |].
  assert (Hl : filter P l = filter Q l).
  { apply IH. intros x Hx. apply Hagree. right. exact Hx. }
  pose proof (Hagree a ltac:(left)) as Ha.
  destruct (decide (P a)) as [HP | HP].
  - rewrite !filter_cons_True by tauto. rewrite Hl. reflexivity.
  - rewrite !filter_cons_False by tauto. exact Hl.
Qed.

Lemma filter_all {A : Type} (P : A -> Prop) `{!forall x, Decision (P x)} (l : list A) :
  Forall P l -> filter P l = l.
Proof.
  induction 1 as [| a l Ha _ IH]; [reflexivity |].
  rewrite filter_cons_True by exact Ha. rewrite IH. reflexivity.
Qed.

Lemma reorder_twice (df : DataFrame) :
  _reorder_dataframe_columns (_reorder_dataframe_columns df)
  = _reorder_dataframe_columns df.
Proof.
  unfold _reorder_dataframe_columns at 1. unfold df_select.
  set (out := _reorder_dataframe_columns df).
  assert (Hcols : filter (fun col => col ∈ df_columns out) column_order = df_columns out).
  { unfold out, _reorder_dataframe_columns, df_select. cbn [df_columns].
    apply filter_agree. intros c Hc. rewrite list_elem_of_filter. tauto. }
  rewrite Hcols. destruct out as [cols rows] eqn:Hout. cbn [df_columns df_rows].
  f_equal. unfold out, _reorder_dataframe_columns, df_select in Hout.
  injection Hout as Hc Hr. rewrite <- Hr, <- Hc.
  rewrite map_map. apply map_ext. intros r. unfold set_cells. cbn [row_index row_cells].
  f_equal. rewrite map_filter_filter. apply map_filter_ext. intros k v _. cbn [fst]. tauto.
Qed.

Lemma comment_keys_of_cells (c : CommentRecord) : (comment_cells c).*1 = comment_keys.
Proof. reflexivity. Qed.

Lemma comment_keys_ordered : forall c : string, c ∈ comment_keys <-> c ∈ column_order.
Proof.
  assert (H1 : Forall (fun c => c ∈ column_order) comment_keys).
  { match goal with |- ?P => apply (@bool_decide_unpack P _); vm_compute; exact I end. }
  assert (H2 : Forall (fun c => c ∈ comment_keys) column_order).
  { match goal with |- ?P => apply (@bool_decide_unpack P _); vm_compute; exact I end. }
  intros c. split; intros Hc.
  - exact (proj1 (Forall_forall _ _) H1 c Hc).
  - exact (proj1 (Forall_forall _ _) H2 c Hc).
Qed.

Lemma column_order_no_dup : NoDup column_order /\ NoDup comment_keys.
Proof.
  split; match goal with |- ?P => apply (@bool_decide_unpack P _); vm_compute; exact I end.
Qed.

Lemma comment_row_kept (i : nat) (c : CommentRecord) :
  set_cells (filter (fun kv : string * cell => kv.1 ∈ column_order)) (comment_row i c)
  = comment_row i c.
Proof.
  unfold set_cells, comment_row. cbn [row_index row_cells].
  apply (f_equal (Build_Row _)). apply map_eq. intros k.
  destruct (list_to_map (comment_cells c) !! k) as [v |] eqn:E.
  - apply map_lookup_filter_Some. split; [exact E |]. cbn [fst].
    apply comment_keys_ordered. rewrite <- (comment_keys_of_cells c).
    apply elem_of_list_to_map_2 in E.
    apply (list_elem_of_fmap_2 fst) in E. exact E.
  - apply map_lookup_filter_None. left. exact E.
Qed.

(** X16: [_reorder_dataframe_columns] keeps, in the fixed order of its
    list, exactly the columns of the table that the list names; a
    column the list does not name is dropped, with its cells; the rows,
    their order and their index stay, and so does every cell under a
    kept column.  Reordering again changes nothing. *)
Theorem reorder_keeps_listed_columns (df : DataFrame) :
  let out := _reorder_dataframe_columns df in
  df_columns out `sublist_of` column_order
  /\ (forall c, c ∈ df_columns out <-> (c ∈ column_order /\ c ∈ df_columns df))
  /\ map row_index (df_rows out) = map row_index (df_rows df)
  /\ Forall2 (fun r r' : Row =>
                forall c, row_cells r' !! c
                          = if bool_decide (c ∈ df_columns out) then row_cells r !! c
                            else None)
       (df_rows df) (df_rows out)
  /\ _reorder_dataframe_columns out = out.
Proof.
  cbv zeta. split; [apply sublist_filter |].
  split; [apply existing_columns_spec |].
  split.
  { unfold _reorder_dataframe_columns, df_select. cbn [df_rows].
    rewrite map_map. reflexivity. }
  split; [| apply reorder_twice].
  unfold _reorder_dataframe_columns, df_select. cbn [df_rows df_columns].
  induction (df_rows df) as [| r rows IH]; cbn [map]; constructor; [| exact IH].
  intros c. unfold set_cells. cbn [row_cells].
  case_bool_decide as Hc.
  - destruct (row_cells r !! c) as [v |] eqn:E.
    + apply map_lookup_filter_Some. split; [exact E | exact Hc].
    + apply map_lookup_filter_None. left. exact E.
  - apply map_lookup_filter_None. right. intros v _. exact Hc.
Qed.

(** X17: [save_results] writes nothing when no comment was gathered;
    otherwise the table it writes has the nineteen columns of the fixed
    order, which are the nineteen keys of a comment, each once, and one
    row per gathered comment, in the order gathered, with every value
    of the comment under its key. *)
Theorem saved_table_columns_and_rows {W : Type} (self : @Scraper W) :
  (all_comments self = [] <-> save_results self = None)
  /\ (forall df, save_results self = Some df ->
        df_columns df = column_order
        /\ df_rows df = imap comment_row (all_comments self)
        /\ length (df_rows df) = length (all_comments self))
  /\ column_order ≡ₚ comment_keys
  /\ length column_order = 19%nat.
Proof.
  split.
  { unfold save_results. destruct (all_comments self); split;
      try reflexivity; discriminate. }
  split.
  2:{ split; [| reflexivity]. destruct column_order_no_dup as [H1 H2].
      apply NoDup_Permutation; [exact H1 | exact H2 |].
      intros c. symmetry. apply comment_keys_ordered. }
  intros df. unfold save_results.
  destruct (all_comments self) as [| c cs] eqn:E; [discriminate |].
  intros Hdf. injection Hdf as <-.
  assert (Hcols : filter (fun col => col ∈ df_columns (frame_of_comments (c :: cs)))
                    column_order = column_order).
  { unfold frame_of_comments. cbn [df_columns].
    apply filter_all. apply Forall_forall. intros k Hk.
    apply comment_keys_ordered. exact Hk. }
  unfold _reorder_dataframe_columns. rewrite Hcols. unfold df_select.
  cbn [df_columns df_rows].
  assert (Hrows : map (set_cells (filter (fun kv : string * cell => kv.1 ∈ column_order)))
                    (df_rows (frame_of_comments (c :: cs)))
                  = imap comment_row (c :: cs)).
  { unfold frame_of_comments. cbn [df_rows].
    generalize (c :: cs). intros l. generalize comment_row_kept.
    generalize comment_row. intros f Hf.
    revert f Hf. induction l as [| x l IH]; intros f Hf; [reflexivity |].
    cbn [imap map]. rewrite Hf. f_equal. apply IH. intros i y. apply Hf. }
  rewrite Hrows. split; [reflexivity |]. split; [reflexivity |].
  rewrite length_imap. reflexivity.
Qed.

End SavedTable.

(** ** The video id *)

Section VideoId.

Variable hash : string -> Z.

Lemma partition_v_after (pre t : string) :
  partition "v=" pre = None ->
  partition "v=" (pre ++ "v=" ++ t) = Some (pre, t).
Proof.
  induction pre as [| c pre IH]; intros Hnone.
  - reflexivity.
  - rewrite append_cons.
    assert (Hhere : strip_prefix "v=" (String c pre) = None).
    { cbn [partition] in Hnone. destruct (strip_prefix "v=" (String c pre)); [discriminate |].
      reflexivity. }
    assert (Hrest : partition "v=" pre = None).
    { cbn [partition] in Hnone. rewrite Hhere in Hnone.
      destruct (partition "v=" pre) as [[a b] |]; [discriminate | reflexivity]. }
    assert (Hhere' : strip_prefix "v=" (String c (pre ++ "v=" ++ t)) = None).
    { cbn [strip_prefix] in Hhere |- *. destruct (Ascii.eqb "v" c); [| reflexivity].
      destruct pre as [| d pre]; [reflexivity |].
      rewrite append_cons. destruct (Ascii.eqb "=" d); [discriminate | reflexivity]. }
    cbn [partition]. rewrite Hhere', (IH Hrest). reflexivity.
Qed.

Lemma id_char_spec (c : ascii) :
  id_char c = true -> Ascii.eqb "=" c = false /\ Ascii.eqb "&" c = false.
Proof.
  unfold id_char. rewrite (Ascii.eqb_sym "=" c), (Ascii.eqb_sym "&" c).
  destruct (Ascii.eqb c "&"), (Ascii.eqb c "="); cbn; intros E;
    try discriminate E; split; reflexivity.
Qed.

(** No ["v="] begins inside a run of id characters, whatever follows
    it, unless what follows begins with ["="]. *)
Lemma strip_prefix_v_id (c : ascii) (id rest : string) :
  all_chars id_char id = true ->
  (rest = "" \/ exists r, rest = String "&" r) ->
  strip_prefix "v=" (String c (id ++ rest)) = None.
Proof.
  intros Hid Hrest. cbn [strip_prefix]. destruct (Ascii.eqb "v" c); [| reflexivity].
  destruct id as [| d id].
  - change ("" ++ rest)%string with rest.
    destruct Hrest as [-> | [r ->]]; reflexivity.
  - rewrite append_cons. cbn [all_chars] in Hid. apply andb_prop in Hid.
    destruct Hid as [Hd _]. destruct (id_char_spec d Hd) as [-> _]. reflexivity.
Qed.

Lemma partition_v_id (id rest : string) :
  all_chars id_char id = true ->
  (rest = "" \/ exists r, rest = String "&" r) ->
  match partition "v=" (id ++ rest) with
  | Some (before, _) => exists r, before = (id ++ String "&" r)%string
  | None => True
  end.
Proof.
  induction id as [| c id IH]; intros Hid Hrest.
  - change ("" ++ rest)%string with rest.
    destruct Hrest as [-> | [r ->]]; [exact I |].
    cbn [partition strip_prefix]. change (Ascii.eqb "v" "&") with false. cbv iota.
    destruct (partition "v=" r) as [[a b] |]; [| exact I].
    exists a. reflexivity.
  - cbn [all_chars] in Hid. apply andb_prop in Hid. destruct Hid as [Hc Hid].
    rewrite append_cons. cbn [partition].
    rewrite (strip_prefix_v_id c id rest Hid Hrest).
    specialize (IH Hid Hrest).
    destruct (partition "v=" (id ++ rest)) as [[a b] |]; [| exact I].
    destruct IH as (r & ->). exists r. reflexivity.
Qed.

Lemma split_first_id (id r : string) :
  all_chars id_char id = true ->
  (r = "" \/ exists r', r = String "&" r') ->
  split_first "&" (id ++ r) = id.
Proof.
  unfold split_first. induction id as [| c id IH]; intros Hid Hr.
  - change ("" ++ r)%string with r. destruct Hr as [-> | [r' ->]]; reflexivity.
  - cbn [all_chars] in Hid. apply andb_prop in Hid. destruct Hid as [Hc Hid].
    destruct (id_char_spec c Hc) as [_ Hamp].
    rewrite append_cons. cbn [partition strip_prefix]. rewrite Hamp.
    specialize (IH Hid Hr).
    destruct (partition "&" (id ++ r)) as [[a b] |]; rewrite IH; reflexivity.
Qed.

(** X18: [_extract_video_id] never raises.  On a URL in which the first
    ["v="] is followed by an id (characters other than ["&"] and
    ["="]) and then by the end or by ["&"], it returns that id; on a
    text without ["v="] it returns ["unknown_"] followed by a number
    from 0 to 9999. *)
Theorem extract_video_id_of_watch_url :
  (forall pre id rest : string,
      partition "v=" pre = None ->
      all_chars id_char id = true ->
      (rest = "" \/ exists r, rest = String "&" r) ->
      _extract_video_id hash (pre ++ "v=" ++ id ++ rest) = id)
  /\ (forall url : string,
        partition "v=" url = None ->
        exists n : Z,
          0 <= n < 10000
          /\ _extract_video_id hash url = ("unknown_" ++ str_of_int n)%string).
Proof.
  split.
  - intros pre id rest Hpre Hid Hrest. unfold _extract_video_id, split_second.
    rewrite (partition_v_after pre (id ++ rest) Hpre).
    pose proof (partition_v_id id rest Hid Hrest) as Hnext.
    destruct (partition "v=" (id ++ rest)) as [[a b] |].
    + destruct Hnext as (r & ->).
      apply split_first_id; [exact Hid |]. right. exists r. reflexivity.
    + apply split_first_id; assumption.
  - intros url Hnone. unfold _extract_video_id, split_second. rewrite Hnone.
    exists (hash url mod 10000). split; [apply Z.mod_pos_bound; lia | reflexivity].
Qed.

End VideoId.

(** X18 on a watch URL with a second parameter. *)
Lemma extract_video_id_of_watch_url_witness :
  _extract_video_id (fun _ => 0) "https://www.youtube.com/watch?v=dQw4w9WgXcQ&t=42s"
  = "dQw4w9WgXcQ".
Proof.
  destruct (extract_video_id_of_watch_url (fun _ => 0)) as [Hid _].
  exact (Hid "https://www.youtube.com/watch?" "dQw4w9WgXcQ" "&t=42s" eq_refl eq_refl
           (or_intror (ex_intro _ "t=42s" eq_refl))).
Defined.
